(** * Study-time tracker (script.js): store, session timer and aggregation

    A shallow embedding of [src/script.js] and the properties of its
    persisted store ([loadData], [saveData]), its session timer (the three
    click handlers of [setupRecordActions]), the goal form
    ([setupGoalActions]) and the aggregation used by the progress view
    ([filterLast7Days], [calcSubjectTotals], [updateProgressView]).

    Modelling conventions.
    - A JavaScript Number is [NaN], an infinity, or a finite value carried
      as an exact rational; zero is unsigned and the rounding of arithmetic
      results to binary64 is not modelled.
    - Values are the values [JSON.parse] builds, plus [undefined].
    - A thrown exception is the [Throw] outcome; a handler that throws keeps
      the effects it had already performed.
    - A time value is a whole number of milliseconds since the epoch, in
      UTC.  The script reads and sets its dates in local time; the time
      zone belongs to the host, which gives the local time of an instant
      ([LocalTime]) and the instant of a local time ([UTC]), transitions
      of the zone included.  Time values stay within the range of dates.
    - The built-in conversions between strings and numbers, the time zone
      and the date parser outside the ISO date-time format belong to the
      host and are left abstract ([Host]).
    - Strings are sequences of bytes (UTF-8); the page has the elements the
      script looks up, and writing to the storage does not fail. *)

From Stdlib Require Import ZArith QArith Qround Qminmax Bool List String Ascii Lia.
From stdpp Require Import base option strings gmap.

Local Open Scope string_scope.
Local Open Scope Z_scope.

(** ** Numbers *)

Inductive number : Type :=
| NaN
| PInf
| NInf
| Fin (q : Q).

Definition ofZ (z : Z) : number := Fin (inject_Z z).

Module Num.

Definition isNaN (a : number) : bool :=
  match a with NaN => true | _ => false end.

(** [a < b]; every comparison with [NaN] is false. *)
Definition lt (a b : number) : bool :=
  match a, b with
  | NaN, _ | _, NaN => false
  | PInf, _ => false
  | _, NInf => false
  | NInf, _ => true
  | _, PInf => true
  | Fin x, Fin y => match (x ?= y)%Q with Lt => true | _ => false end
  end.

Definition gt (a b : number) : bool := lt b a.

Definition le (a b : number) : bool :=
  negb (isNaN a) && negb (isNaN b) && negb (lt b a).

Definition ge (a b : number) : bool := le b a.

Definition neg (a : number) : number :=
  match a with
  | NaN => NaN
  | PInf => NInf
  | NInf => PInf
  | Fin x => Fin (- x)%Q
  end.

Definition add (a b : number) : number :=
  match a, b with
  | NaN, _ | _, NaN => NaN
  | PInf, NInf | NInf, PInf => NaN
  | PInf, _ | _, PInf => PInf
  | NInf, _ | _, NInf => NInf
  | Fin x, Fin y => Fin (x + y)%Q
  end.

Definition sub (a b : number) : number := add a (neg b).

Definition isZero (q : Q) : bool :=
  match (q ?= 0)%Q with Eq => true | _ => false end.

Definition isNegative (q : Q) : bool :=
  match (q ?= 0)%Q with Lt => true | _ => false end.

Definition div (a b : number) : number :=
  match a, b with
  | NaN, _ | _, NaN => NaN
  | (PInf | NInf), (PInf | NInf) => NaN
  | PInf, Fin y => if isNegative y then NInf else PInf
  | NInf, Fin y => if isNegative y then PInf else NInf
  | Fin _, (PInf | NInf) => Fin 0
  | Fin x, Fin y =>
      if isZero y then
        if isZero x then NaN else if isNegative x then NInf else PInf
      else Fin (x / y)%Q
  end.

(** ToBoolean on a number, as [||] uses it. *)
Definition truthy (a : number) : bool :=
  match a with
  | NaN => false
  | Fin x => negb (isZero x)
  | _ => true
  end.

(** [a || b] on numbers. *)
Definition or (a b : number) : number := if truthy a then a else b.

End Num.

Definition Number_isFinite (a : number) : bool :=
  match a with Fin _ => true | _ => false end.

(** [Math.round]: the nearest integer, a tie going to the larger one. *)
Definition Math_round (a : number) : number :=
  match a with
  | Fin x => ofZ (Qfloor (x + (1 # 2)))
  | _ => a
  end.

Definition Math_max (a b : number) : number :=
  match a, b with
  | NaN, _ | _, NaN => NaN
  | _, _ => if Num.lt a b then b else a
  end.

(** ** Values and outcomes *)

#[warnings="-register-all"]
Inductive value : Type :=
| VUndef
| VNull
| VBool (b : bool)
| VNum (n : number)
| VStr (s : string)
| VArr (items : list value)
| VObj (props : list (string * value)).

(** The outcome of an evaluation that may throw. *)
Inductive result (A : Type) : Type :=
| Ok (a : A)
| Throw.
Arguments Ok {A} a.
Arguments Throw {A}.

#[export] Instance result_ret : MRet result := fun A a => Ok a.
#[export] Instance result_bind : MBind result := fun A B f r =>
  match r with Ok a => f a | Throw => Throw end.

Definition isOk {A} (r : result A) : bool :=
  match r with Ok _ => true | Throw => false end.

(** Own-property lookup; the first binding of a key is the property. *)
Fixpoint lookupProp (k : string) (props : list (string * value)) : value :=
  match props with
  | [] => VUndef
  | (k', v) :: rest => if String.eqb k k' then v else lookupProp k rest
  end.

Definition hasOwn (k : string) (props : list (string * value)) : bool :=
  existsb (fun p => String.eqb k (fst p)) props.

(** [v.k] for the keys the script reads ([records], [goal], [mode],
    [targetMinutes], [date], [subject], [duration]): none of them is a
    member of a built-in prototype, so only an object's own properties can
    answer, and reading from [null] or [undefined] throws. *)
Definition Get (v : value) (k : string) : result value :=
  match v with
  | VUndef | VNull => Throw
  | VObj props => Ok (lookupProp k props)
  | _ => Ok VUndef
  end.

(** [v?.k] *)
Definition GetOpt (v : value) (k : string) : result value :=
  match v with
  | VUndef | VNull => Ok VUndef
  | _ => Get v k
  end.

Definition Array_isArray (v : value) : bool :=
  match v with VArr _ => true | _ => false end.

(** ** The host *)

Class Host : Type := {
  (** StringToNumber: the numeric value of a string, [NaN] when it is not a
      numeric literal. *)
  StringToNumber : string -> number;
  (** Number::toString. *)
  NumberToString : number -> string;
  (** LocalTime: the local time of an instant, as a time value. *)
  LocalTime : Z -> Z;
  (** UTC: the instant of a local time.  For a local time that a transition
      of the zone skips or repeats, this is the instant the host settles
      on. *)
  UTC : Z -> Z;
  (** What [new Date(s)] makes of a string outside the ISO date-time
      format; [None] is an invalid date. *)
  legacyDateParse : string -> option Z;
  (** [d.toLocaleTimeString("ja-JP")] of the date with this time value. *)
  toLocaleTimeString : Z -> string
}.

Section Coercions.
Context `{Host}.

(** ToString.  An array joins its elements with commas, [null] and
    [undefined] elements giving the empty string.  An object made by
    [JSON.parse] has no callable member of its own: it inherits
    [Object.prototype.toString] unless an own [toString] property shadows
    it, and then no conversion is left and a TypeError is thrown. *)
Fixpoint ToString (v : value) : result string :=
  match v with
  | VUndef => Ok "undefined"
  | VNull => Ok "null"
  | VBool true => Ok "true"
  | VBool false => Ok "false"
  | VNum n => Ok (NumberToString n)
  | VStr s => Ok s
  | VArr items =>
      (fix join (l : list value) : result string :=
         match l with
         | [] => Ok ""
         | x :: rest =>
             e ← match x with
                 | VUndef | VNull => Ok ""
                 | _ => ToString x
                 end;
             match rest with
             | [] => Ok e
             | _ => r ← join rest; Ok (e ++ "," ++ r)
             end
         end) items
  | VObj props =>
      if hasOwn "toString" props then Throw else Ok "[object Object]"
  end.

(** ToNumber, that is [Number(v)]. *)
Definition ToNumber (v : value) : result number :=
  match v with
  | VUndef => Ok NaN
  | VNull => Ok (ofZ 0)
  | VBool true => Ok (ofZ 1)
  | VBool false => Ok (ofZ 0)
  | VNum n => Ok n
  | VStr s => Ok (StringToNumber s)
  | VArr _ | VObj _ => s ← ToString v; Ok (StringToNumber s)
  end.

End Coercions.

(** ** Local calendar and dates *)

Definition msPerDay : Z := 86400000.

Definition Day (t : Z) : Z := t / msPerDay.
Definition TimeWithinDay (t : Z) : Z := t mod msPerDay.
Definition MakeDate (day time : Z) : Z := day * msPerDay + time.
Definition MakeTime (h m s ms : Z) : Z := ((h * 60 + m) * 60 + s) * 1000 + ms.

(** The proleptic Gregorian calendar, by 400-year eras that start on a
    1 March: a month is numbered from March ([monthIndex]) so that the leap
    day comes last. *)
Definition monthIndex (m : Z) : Z := if 2 <? m then m - 3 else m + 9.
Definition yearStart (yoe : Z) : Z := 365 * yoe + yoe / 4 - yoe / 100.
Definition yearOfEra (doe : Z) : Z :=
  (doe - doe / 1460 + doe / 36524 - doe / 146096) / 365.

(** Day number (days since 1970-01-01) of the civil date [y]-[m]-[d],
    [m] counted from 1. *)
Definition daysFromCivil (y m d : Z) : Z :=
  let y' := if m <=? 2 then y - 1 else y in
  let era := y' / 400 in
  let yoe := y' - era * 400 in
  let doy := (153 * monthIndex m + 2) / 5 + d - 1 in
  era * 146097 + (yearStart yoe + doy) - 719468.

(** The civil date (year, month from 1, day of month) of a day number. *)
Definition civilFromDays (z : Z) : Z * Z * Z :=
  let z' := z + 719468 in
  let era := z' / 146097 in
  let doe := z' - era * 146097 in
  let yoe := yearOfEra doe in
  let doy := doe - yearStart yoe in
  let mp := (5 * doy + 2) / 153 in
  let d := doy - (153 * mp + 2) / 5 + 1 in
  let m := if mp <? 10 then mp + 3 else mp - 9 in
  (yoe + era * 400 + (if m <=? 2 then 1 else 0), m, d).

Definition YearFromTime (t : Z) : Z := (civilFromDays (Day t)).1.1.
(** Months are counted from 0, as [getMonth] does. *)
Definition MonthFromTime (t : Z) : Z := (civilFromDays (Day t)).1.2 - 1.
Definition DateFromTime (t : Z) : Z := (civilFromDays (Day t)).2.

Definition MakeDay (year month date : Z) : Z :=
  daysFromCivil (year + month / 12) (month mod 12 + 1) 1 + date - 1.

Definition isLeapYear (y : Z) : bool :=
  (y mod 4 =? 0) && (negb (y mod 100 =? 0) || (y mod 400 =? 0)).

Definition daysInMonth (y m : Z) : Z :=
  if m =? 2 then (if isLeapYear y then 29 else 28)
  else if (m =? 4) || (m =? 6) || (m =? 9) || (m =? 11) then 30
  else 31.

Definition digitOf (c : ascii) : option Z :=
  let n := Z.of_nat (nat_of_ascii c) in
  if (48 <=? n) && (n <=? 57) then Some (n - 48) else None.

Fixpoint digitsFrom (acc : Z) (cs : list ascii) : option Z :=
  match cs with
  | [] => Some acc
  | c :: rest => d ← digitOf c; digitsFrom (acc * 10 + d) rest
  end.

Definition isChar (c : ascii) (s : string) : bool := String.eqb (String c "") s.

(** A Date is represented by its time value; [None] is the invalid date. *)
Definition Date_ge (a b : option Z) : bool :=
  match a, b with Some x, Some y => y <=? x | _, _ => false end.
Definition Date_le (a b : option Z) : bool :=
  match a, b with Some x, Some y => x <=? y | _, _ => false end.

(** [s.padStart(2, "0")] *)
Definition padStart2 (s : string) : string :=
  match String.length s with
  | O => "00"
  | S O => "0" ++ s
  | _ => s
  end.

Section Dates.
Context `{Host}.

(** [d.setHours(0, 0, 0, 0)]: midnight of the local day of [t]. *)
Definition Date_setHoursZero (t : Z) : Z :=
  let t := LocalTime t in
  UTC (MakeDate (Day t) (MakeTime 0 0 0 0)).
(** [d.getFullYear()], [d.getMonth()], [d.getDate()] *)
Definition Date_getFullYear (t : Z) : Z := YearFromTime (LocalTime t).
Definition Date_getMonth (t : Z) : Z := MonthFromTime (LocalTime t).
Definition Date_getDate (t : Z) : Z := DateFromTime (LocalTime t).
(** [d.setDate(dt)]: the local date with its day of the month replaced. *)
Definition Date_setDate (t dt : Z) : Z :=
  let t := LocalTime t in
  UTC (MakeDate (MakeDay (YearFromTime t) (MonthFromTime t) dt) (TimeWithinDay t)).

(** The ISO date-time form [YYYY-MM-DDTHH:mm:ss], which carries no offset
    and is therefore read as a local time.  A string of another shape, or
    one with a field out of range, is not an instance of the format. *)
Definition parseLocalDateTime (s : string) : option Z :=
  match list_ascii_of_string s with
  | [y1; y2; y3; y4; a; m1; m2; b; d1; d2; t; h1; h2; c; n1; n2; e; s1; s2] =>
      if isChar a "-" && isChar b "-" && isChar t "T" && isChar c ":" && isChar e ":"
      then
        y ← digitsFrom 0 [y1; y2; y3; y4];
        mo ← digitsFrom 0 [m1; m2];
        d ← digitsFrom 0 [d1; d2];
        h ← digitsFrom 0 [h1; h2];
        mi ← digitsFrom 0 [n1; n2];
        se ← digitsFrom 0 [s1; s2];
        if (1 <=? mo) && (mo <=? 12) && (1 <=? d) && (d <=? daysInMonth y mo)
           && (h <=? 23) && (mi <=? 59) && (se <=? 59)
        then Some (UTC (MakeDate (daysFromCivil y mo d) (MakeTime h mi se 0)))
        else None
      else None
  | _ => None
  end.

(** [new Date(s)] *)
Definition Date_parse (s : string) : option Z :=
  match parseLocalDateTime s with
  | Some t => Some t
  | None => legacyDateParse s
  end.

Definition formatDate (date : Z) : string :=
  let y := NumberToString (ofZ (Date_getFullYear date)) in
  let m := padStart2 (NumberToString (ofZ (Date_getMonth date + 1))) in
  let d := padStart2 (NumberToString (ofZ (Date_getDate date))) in
  y ++ "-" ++ m ++ "-" ++ d.

End Dates.

(** ** The page: storage, session and view *)

(** The text held under a storage key, up to what [JSON.parse] makes of
    it: the empty string, a text that is not JSON, or the JSON text of a
    value. *)
Inductive raw : Type :=
| EmptyText
| NotJSON
| JSONText (v : value).

Definition JSON_parse (r : raw) : result value :=
  match r with
  | JSONText v => Ok v
  | _ => Throw
  end.

(** What [JSON.parse] reads back from [JSON.stringify v]: a number that is
    not finite is written as [null], an [undefined] array element too, and
    an [undefined] property is left out. *)
Fixpoint jsonOf (v : value) : value :=
  match v with
  | VNum n => if Number_isFinite n then v else VNull
  | VArr items =>
      VArr (map (fun x => match x with VUndef => VNull | _ => jsonOf x end) items)
  | VObj props =>
      VObj ((fix each (ps : list (string * value)) : list (string * value) :=
               match ps with
               | [] => []
               | (k, VUndef) :: rest => each rest
               | (k, x) :: rest => (k, jsonOf x) :: each rest
               end) props)
  | _ => v
  end.

Definition JSON_stringify (v : value) : raw := JSONText (jsonOf v).

Record Goal : Type := { mode : string; targetMinutes : number }.
Record Snapshot : Type := { records : list value; goal : Goal }.

Definition STORAGE_KEY : string := "studyTrackerData".

Definition SUBJECTS : list string := ["国語"; "数学"; "英語"; "理科"; "社会"].

Definition defaultData : Snapshot :=
  {| records := []; goal := {| mode := "weekly"; targetMinutes := ofZ 300 |} |}.

(** The snapshot as the object [JSON.stringify] is given. *)
Definition snapshotValue (d : Snapshot) : value :=
  VObj [("records", VArr (records d));
        ("goal", VObj [("mode", VStr (mode (goal d)));
                       ("targetMinutes", VNum (targetMinutes (goal d)))])].

Record Session : Type := { subject : option string; startAt : option Z }.

(** A property of the totals object: a number, or something that is not
    one (an inherited member, or the string that adding to it gives). *)
Inductive tval : Type :=
| TNum (n : number)
| TOther.

Record World : Type := {
  localStorage : gmap string raw;
  currentSession : Session;
  (** [#targetMinutes.value] *)
  targetInput : string;
  (** [#goalMessage.textContent] *)
  goalMessage : string;
  (** [#recordStatus.textContent] *)
  recordStatus : string;
  startBtnDisabled : bool;
  endBtnDisabled : bool;
  (** the subject button that carries the class [active] *)
  activeSubject : option string;
  (** [#weeklyTotal.textContent] and [#remainingMinutes.textContent] *)
  weeklyTotalText : string;
  remainingText : string;
  (** the data of the bar chart, one value per subject *)
  subjectChart : option (list (option tval))
}.

Definition M (A : Type) : Type := World -> result A * World.

#[export] Instance M_ret : MRet M := fun A a w => (Ok a, w).
#[export] Instance M_bind : MBind M := fun A B f m w =>
  match m w with
  | (Ok a, w') => f a w'
  | (Throw, w') => (Throw, w')
  end.

Definition lift {A} (r : result A) : M A := fun w => (r, w).

(** [try { body } catch { handler }] *)
Definition tryCatch {A} (body handler : M A) : M A := fun w =>
  match body w with
  | (Throw, w') => handler w'
  | outcome => outcome
  end.

Definition modify (f : World -> World) : M unit := fun w => (Ok tt, f w).
Definition gets {A} (f : World -> A) : M A := fun w => (Ok (f w), w).

Definition getItem (k : string) : M (option raw) :=
  gets (fun w => localStorage w !! k).

Definition withStorage (s : gmap string raw) (w : World) : World :=
  {| localStorage := s; currentSession := currentSession w;
     targetInput := targetInput w; goalMessage := goalMessage w;
     recordStatus := recordStatus w; startBtnDisabled := startBtnDisabled w;
     endBtnDisabled := endBtnDisabled w; activeSubject := activeSubject w;
     weeklyTotalText := weeklyTotalText w; remainingText := remainingText w;
     subjectChart := subjectChart w |}.

Definition setItem (k : string) (r : raw) : M unit :=
  modify (fun w => withStorage (<[k := r]> (localStorage w)) w).

Definition withSession (s : Session) (w : World) : World :=
  {| localStorage := localStorage w; currentSession := s;
     targetInput := targetInput w; goalMessage := goalMessage w;
     recordStatus := recordStatus w; startBtnDisabled := startBtnDisabled w;
     endBtnDisabled := endBtnDisabled w; activeSubject := activeSubject w;
     weeklyTotalText := weeklyTotalText w; remainingText := remainingText w;
     subjectChart := subjectChart w |}.

Definition withGoalMessage (s : string) (w : World) : World :=
  {| localStorage := localStorage w; currentSession := currentSession w;
     targetInput := targetInput w; goalMessage := s;
     recordStatus := recordStatus w; startBtnDisabled := startBtnDisabled w;
     endBtnDisabled := endBtnDisabled w; activeSubject := activeSubject w;
     weeklyTotalText := weeklyTotalText w; remainingText := remainingText w;
     subjectChart := subjectChart w |}.

Definition withRecordStatus (s : string) (w : World) : World :=
  {| localStorage := localStorage w; currentSession := currentSession w;
     targetInput := targetInput w; goalMessage := goalMessage w;
     recordStatus := s; startBtnDisabled := startBtnDisabled w;
     endBtnDisabled := endBtnDisabled w; activeSubject := activeSubject w;
     weeklyTotalText := weeklyTotalText w; remainingText := remainingText w;
     subjectChart := subjectChart w |}.

Definition withButtons (startDisabled endDisabled : bool) (w : World) : World :=
  {| localStorage := localStorage w; currentSession := currentSession w;
     targetInput := targetInput w; goalMessage := goalMessage w;
     recordStatus := recordStatus w; startBtnDisabled := startDisabled;
     endBtnDisabled := endDisabled; activeSubject := activeSubject w;
     weeklyTotalText := weeklyTotalText w; remainingText := remainingText w;
     subjectChart := subjectChart w |}.

Definition withActiveSubject (s : option string) (w : World) : World :=
  {| localStorage := localStorage w; currentSession := currentSession w;
     targetInput := targetInput w; goalMessage := goalMessage w;
     recordStatus := recordStatus w; startBtnDisabled := startBtnDisabled w;
     endBtnDisabled := endBtnDisabled w; activeSubject := s;
     weeklyTotalText := weeklyTotalText w; remainingText := remainingText w;
     subjectChart := subjectChart w |}.

Definition withTargetInput (s : string) (w : World) : World :=
  {| localStorage := localStorage w; currentSession := currentSession w;
     targetInput := s; goalMessage := goalMessage w;
     recordStatus := recordStatus w; startBtnDisabled := startBtnDisabled w;
     endBtnDisabled := endBtnDisabled w; activeSubject := activeSubject w;
     weeklyTotalText := weeklyTotalText w; remainingText := remainingText w;
     subjectChart := subjectChart w |}.

Definition withProgress (total remaining : string) (chart : list (option tval))
    (w : World) : World :=
  {| localStorage := localStorage w; currentSession := currentSession w;
     targetInput := targetInput w; goalMessage := goalMessage w;
     recordStatus := recordStatus w; startBtnDisabled := startBtnDisabled w;
     endBtnDisabled := endBtnDisabled w; activeSubject := activeSubject w;
     weeklyTotalText := total; remainingText := remaining;
     subjectChart := Some chart |}.

(** ** The persisted store *)

(** [structuredClone]: values are immutable here, a copy is the value. *)
Definition structuredClone (d : Snapshot) : Snapshot := d.

Definition strictEqStr (v : value) (s : string) : bool :=
  match v with VStr s' => String.eqb s' s | _ => false end.

Section Store.
Context `{Host}.

(** The object literal [loadData] returns, evaluated field by field in
    source order on the parsed value. *)
Definition readSnapshot (parsed : value) : result Snapshot :=
  recs ← Get parsed "records";
  let records := match recs with VArr items => items | _ => [] end in
  g ← GetOpt parsed "goal";
  m ← GetOpt g "mode";
  let mode := if strictEqStr m "weekly" then "weekly" else "weekly" in
  tm ← GetOpt g "targetMinutes";
  n ← ToNumber tm;
  target ← (if Num.gt n (ofZ 0)
            then g' ← Get parsed "goal";
                 tm' ← Get g' "targetMinutes";
                 ToNumber tm'
            else Ok (ofZ 300));
  Ok {| records := records; goal := {| mode := mode; targetMinutes := target |} |}.

Definition loadData : M Snapshot :=
  tryCatch
    (stored ← getItem STORAGE_KEY;
     match stored with
     | None | Some EmptyText => mret (structuredClone defaultData)
     | Some text =>
         parsed ← lift (JSON_parse text);
         lift (readSnapshot parsed)
     end)
    (mret (structuredClone defaultData)).

Definition saveData (data : Snapshot) : M unit :=
  setItem STORAGE_KEY (JSON_stringify (snapshotValue data)).

End Store.

(** ** Aggregation *)

(** [records.filter(keep)], the callback run on each element in order. *)
Fixpoint filterM (keep : value -> result bool) (l : list value)
    : result (list value) :=
  match l with
  | [] => Ok []
  | x :: rest =>
      b ← keep x;
      kept ← filterM keep rest;
      Ok (if b : bool then x :: kept else kept)
  end.

(** [records.reduce(step, init)] and [records.forEach], left to right. *)
Fixpoint foldM {A} (step : A -> value -> result A) (acc : A) (l : list value)
    : result A :=
  match l with
  | [] => Ok acc
  | x :: rest => acc' ← step acc x; foldM step acc' rest
  end.

(** The members every object inherits from [Object.prototype]. *)
Definition objectPrototypeKeys : list string :=
  ["constructor"; "hasOwnProperty"; "isPrototypeOf"; "propertyIsEnumerable";
   "toLocaleString"; "toString"; "valueOf"; "__proto__";
   "__defineGetter__"; "__defineSetter__"; "__lookupGetter__";
   "__lookupSetter__"].

Definition inList (k : string) (l : list string) : bool :=
  existsb (String.eqb k) l.

(** [totals[k]]: an own property, else an inherited member, else
    [undefined]. *)
Definition readTotal (totals : gmap string tval) (k : string) : option tval :=
  match totals !! k with
  | Some v => Some v
  | None => if inList k objectPrototypeKeys then Some TOther else None
  end.

(** [totals[k] = v]; [__proto__] is an accessor whose setter ignores a
    value that is not an object. *)
Definition writeTotal (totals : gmap string tval) (k : string) (v : tval)
    : gmap string tval :=
  if String.eqb k "__proto__" then totals else <[k := v]> totals.

(** [old + n] for a number [n]: a sum of numbers, or a string. *)
Definition plusNumber (old : tval) (n : number) : tval :=
  match old with
  | TNum a => TNum (Num.add a n)
  | TOther => TOther
  end.

(** [Object.fromEntries(SUBJECTS.map((subject) => [subject, 0]))] *)
Definition zeroTotals : gmap string tval :=
  list_to_map (map (fun s => (s, TNum (ofZ 0))) SUBJECTS).

Section Aggregation.
Context `{Host}.

(** The start of the window: today at midnight, moved back six days. *)
Definition windowStart (now : Z) : Z :=
  let start := now in
  let start := Date_setHoursZero start in
  Date_setDate start (Date_getDate start - 6).

Definition inLast7Days (now : Z) (record : value) : result bool :=
  d ← Get record "date";
  s ← ToString d;
  let recDate := Date_parse (s ++ "T00:00:00") in
  Ok (Date_ge recDate (Some (windowStart now)) && Date_le recDate (Some now)).

Definition filterLast7Days (now : Z) (records : list value)
    : result (list value) :=
  filterM (inLast7Days now) records.

(** [Number(record.duration) || 0] *)
Definition durationOf (record : value) : result number :=
  d ← Get record "duration";
  n ← ToNumber d;
  Ok (Num.or n (ofZ 0)).

Definition addToTotals (totals : gmap string tval) (record : value)
    : result (gmap string tval) :=
  sub ← Get record "subject";
  key ← ToString sub;
  match readTotal totals key with
  | Some old =>
      n ← durationOf record;
      Ok (writeTotal totals key (plusNumber old n))
  | None => Ok totals
  end.

Definition calcSubjectTotals (records : list value)
    : result (gmap string tval) :=
  foldM addToTotals zeroTotals records.

(** The remainder shown by the progress view (line 219). *)
Definition remaining (target total : number) : number :=
  Math_max (ofZ 0) (Num.sub target total).

Definition weeklyTotalOf (recent : list value) : result number :=
  foldM (fun sum record => n ← durationOf record; Ok (Num.add sum n))
        (ofZ 0) recent.

Definition renderChart (subjectTotals : gmap string tval)
    : list (option tval) :=
  map (fun s => readTotal subjectTotals s) SUBJECTS.

Definition updateProgressView (now : Z) : M unit :=
  data ← loadData;
  recentRecords ← lift (filterLast7Days now (records data));
  weeklyTotal ← lift (weeklyTotalOf recentRecords);
  let rest := remaining (targetMinutes (goal data)) weeklyTotal in
  subjectTotals ← lift (calcSubjectTotals recentRecords);
  modify (withProgress (NumberToString weeklyTotal) (NumberToString rest)
                       (renderChart subjectTotals)).

End Aggregation.

(** ** The handlers *)

(** The object literal pushed by the stop handler. *)
Definition newRecord (date : string) (subject : value) (duration : number)
    : value :=
  VObj [("date", VStr date); ("subject", subject); ("duration", VNum duration)].

(** [!s] for a string or [null]. *)
Definition noSubject (s : option string) : bool :=
  match s with
  | None => true
  | Some s => String.eqb s ""
  end.

(** A session field as a value, and inside a template literal. *)
Definition subjectValue (s : option string) : value :=
  match s with Some s => VStr s | None => VNull end.
Definition subjectText (s : option string) : string :=
  match s with Some s => s | None => "null" end.

(** [d.getTime()]; calling it on [null] throws. *)
Definition Date_getTime (d : option Z) : result number :=
  match d with Some t => Ok (ofZ t) | None => Throw end.

Definition durationMinutes (startTime endTime : number) : number :=
  Math_max (ofZ 1)
           (Math_round (Num.div (Num.sub endTime startTime) (ofZ 60000))).

Section Handlers.
Context `{Host}.

(** The handlers take the readings of the clock they make, in the order
    they make them: [now] is the [new Date()] of the handler itself,
    [later] the one [filterLast7Days] takes when the progress view is
    refreshed at the end. *)

(** A click on the subject button whose [data-subject] is [s]. *)
Definition selectSubject (s : string) : M unit :=
  modify (withActiveSubject (Some s));;
  sess ← gets currentSession;
  modify (withSession {| subject := Some s; startAt := startAt sess |});;
  modify (withRecordStatus ("科目「" ++ s ++ "」を選択しました。")).

Definition startClick (now : Z) : M unit :=
  sess ← gets currentSession;
  if noSubject (subject sess) then
    modify (withRecordStatus "先に科目を選択してください。")
  else
    modify (withSession {| subject := subject sess; startAt := Some now |});;
    modify (withButtons true false);;
    modify (withRecordStatus
              ("開始時刻を記録しました（" ++ toLocaleTimeString now ++ "）。")).

Definition endClick (now later : Z) : M unit :=
  sess ← gets currentSession;
  if negb (bool_decide (is_Some (startAt sess))) || noSubject (subject sess) then
    modify (withRecordStatus "開始してから終了してください。")
  else
    let endAt := now in
    started ← lift (Date_getTime (startAt sess));
    let minutes := durationMinutes started (ofZ endAt) in
    data ← loadData;
    let data := {| records := records data
                                ++ [newRecord (formatDate endAt)
                                              (subjectValue (subject sess)) minutes];
                   goal := goal data |} in
    saveData data;;
    modify (withRecordStatus
              ("「" ++ subjectText (subject sess) ++ "」を "
               ++ NumberToString minutes ++ " 分記録しました。"));;
    sess ← gets currentSession;
    modify (withSession {| subject := subject sess; startAt := None |});;
    modify (withButtons false true);;
    updateProgressView later.

Definition saveGoalClick (later : Z) : M unit :=
  input ← gets targetInput;
  let value := StringToNumber input in
  if negb (Number_isFinite value) || Num.le value (ofZ 0) then
    modify (withGoalMessage "1以上の数値を入力してください。")
  else
    data ← loadData;
    let data := {| records := records data;
                   goal := {| mode := "weekly";
                              targetMinutes := Math_round value |} |} in
    saveData data;;
    modify (withGoalMessage
              ("目標 " ++ NumberToString (Math_round value) ++ " 分を保存しました。"));;
    updateProgressView later.

End Handlers.

(** ** A page and a host for the examples *)

(** The page as [init] leaves it on a first visit: the default snapshot
    saved, no session, the stop control disabled, nothing studied yet. *)
Definition emptyPage : World :=
  {| localStorage := {[ STORAGE_KEY := JSON_stringify (snapshotValue defaultData) ]};
     currentSession := {| subject := None; startAt := None |};
     targetInput := "300"; goalMessage := ""; recordStatus := "";
     startBtnDisabled := false; endBtnDisabled := true; activeSubject := None;
     weeklyTotalText := "0"; remainingText := "300";
     subjectChart := Some (map (fun _ => Some (TNum (ofZ 0))) SUBJECTS) |}.

(** The world whose stored blob is [r]. *)
Definition stored (r : raw) (w : World) : World :=
  withStorage (<[STORAGE_KEY := r]> (localStorage w)) w.

Definition splitAtDot (s : string) : string * option string :=
  match String.index 0 "." s with
  | Some i => (String.substring 0 i s,
               Some (String.substring (S i) (String.length s - S i) s))
  | None => (s, None)
  end.

(** A numeral [ddd] or [ddd.ddd] as the rational it writes. *)
Definition decimalNumeral (s : string) : number :=
  match splitAtDot s with
  | ("", None) => ofZ 0
  | (w, None) =>
      match w, digitsFrom 0 (list_ascii_of_string w) with
      | String _ _, Some n => ofZ n
      | _, _ => NaN
      end
  | (w, Some f) =>
      match w, f, digitsFrom 0 (list_ascii_of_string w),
            digitsFrom 0 (list_ascii_of_string f) with
      | String _ _, String _ _, Some n, Some m =>
          Fin (inject_Z n + inject_Z m / inject_Z (10 ^ Z.of_nat (String.length f)))
      | _, _, _, _ => NaN
      end
  end.

Fixpoint digitsOfPos (fuel : nat) (n : Z) (acc : string) : string :=
  match fuel with
  | O => acc
  | S fuel' =>
      let acc' := String (ascii_of_nat (Z.to_nat (48 + n mod 10))) acc in
      if n <? 10 then acc' else digitsOfPos fuel' (n / 10) acc'
  end.

Definition integerNumeral (z : Z) : string :=
  if z <? 0 then "-" ++ digitsOfPos 64 (- z) "" else digitsOfPos 64 z "".

(** The time zone of the example host: nine hours ahead of UTC at every
    instant, as Asia/Tokyo is. *)
Definition exampleOffset : Z := 9 * 3600000.

(** A host that agrees with the standard conversions on what the examples
    use: the empty string, decimal numerals without sign or exponent, and
    integers; outside them it answers [NaN], the empty string and the
    invalid date. *)
Definition exampleHost : Host :=
  {| StringToNumber := decimalNumeral;
     NumberToString := fun n =>
       match n with
       | NaN => "NaN"
       | PInf => "Infinity"
       | NInf => "-Infinity"
       | Fin q => if Qeq_bool q (inject_Z (Qfloor q)) then integerNumeral (Qfloor q)
                  else ""
       end;
     LocalTime := fun t => t + exampleOffset;
     UTC := fun t => t - exampleOffset;
     legacyDateParse := fun _ => None;
     toLocaleTimeString := fun _ => "" |}.

(** The example host moved to a zone with one transition: before the
    instant [change] the offset is [before], from it on [after].  A local
    time that the transition skips is settled with the offset before it,
    and one that it repeats is the earlier of its two instants. *)
Definition transitionHost (change before after : Z) : Host :=
  {| StringToNumber := @StringToNumber exampleHost;
     NumberToString := @NumberToString exampleHost;
     LocalTime := fun t => t + (if t <? change then before else after);
     UTC := fun t =>
       if t - before <? change then t - before
       else if change <=? t - after then t - after
       else t - before;
     legacyDateParse := @legacyDateParse exampleHost;
     toLocaleTimeString := @toLocaleTimeString exampleHost |}.

(** Summer time that begins at local midnight, as in America/Santiago on
    2024-09-08 (day 19974): 00:00 at four hours behind UTC becomes 01:00
    at three hours behind. *)
Definition midnightTransitionHost : Host :=
  transitionHost (MakeDate 19974 (MakeTime 4 0 0 0))
                 (- MakeTime 4 0 0 0) (- MakeTime 3 0 0 0).

(** ** Reference definitions for the statements *)

(** A study record, as the stop handler builds it. *)
Module Rec.
Record t : Type := { date : string; subject : string; duration : number }.
Definition toValue (r : t) : value :=
  newRecord (date r) (VStr (subject r)) (duration r).
End Rec.

(** The fallback of each field of the stored object, field by field. *)
Definition recordsOr (field : value) : list value :=
  match field with VArr items => items | _ => [] end.
Definition targetOr (n : number) : number :=
  if Num.gt n (ofZ 0) then n else ofZ 300.
(** [parsed?.goal?.targetMinutes] of an object with these properties. *)
Definition storedTarget (props : list (string * value)) : value :=
  match lookupProp "goal" props with
  | VObj g => lookupProp "targetMinutes" g
  | _ => VUndef
  end.

(** The target the specification asks [loadData] for: the number when it
    is finite and above 0, and 300 otherwise. *)
Definition finiteTargetOr (n : number) : number :=
  if Number_isFinite n && Num.gt n (ofZ 0) then n else ofZ 300.

Section Window.
Context `{Host}.

(** The zone is at the offset [off] from UTC at every instant: it has no
    transition. *)
Definition constantOffset (off : Z) : Prop :=
  (forall t, LocalTime t = t + off) /\ (forall t, UTC t = t - off).

(** The instant of the local midnight that begins the local day [n]. *)
Definition localMidnight (n : Z) : Z := UTC (MakeDate n 0).

(** Whether a date lies in the window of [now]: from the local midnight
    six days before today up to [now], both ends included. *)
Definition inWindow (now : Z) (recDate : option Z) : bool :=
  match recDate with
  | Some t => (localMidnight (Day (LocalTime now) - 6) <=? t) && (t <=? now)
  | None => false
  end.

(** The text the filter reads as the date of a record. *)
Definition dateText (record : value) : result string :=
  d ← Get record "date"; ToString d.

(** The date the filter makes of a record; [None] is the invalid date, and
    stands also for a record whose date cannot be read. *)
Definition recordDate (record : value) : option Z :=
  match dateText record with
  | Ok s => Date_parse (s ++ "T00:00:00")
  | Throw => None
  end.

End Window.

(** The nearest whole minute to a span of milliseconds, half a minute
    going up. *)
Definition nearestMinute (ms : Z) : Z := (ms + 30000) / 60000.

Section Decode.
Context `{Host}.

(** The snapshot [loadData] returns for each content of the storage key. *)
Definition decode (content : option raw) : Snapshot :=
  match content with
  | Some (JSONText v) =>
      match readSnapshot v with Ok d => d | Throw => defaultData end
  | _ => defaultData
  end.

End Decode.

(** ** Inputs of the examples *)

(** A page on which 数学 is selected and the timer was started at time 0. *)
Definition runningMath : World :=
  withSession {| subject := Some "数学"; startAt := Some 0 |}
    (withButtons true false (withActiveSubject (Some "数学") emptyPage)).

Definition mathRecord : value := newRecord "2024-03-10" (VStr "数学") (ofZ 30).

(** [{"records":[{...}],"goal":{"mode":"weekly","targetMinutes":{"toString":1}}}] *)
Definition unconvertibleTargetBlob : list (string * value) :=
  [("records", VArr [mathRecord]);
   ("goal", VObj [("mode", VStr "weekly");
                  ("targetMinutes", VObj [("toString", VNum (ofZ 1))])])].

(** [{"records":[],"goal":{"mode":"weekly","targetMinutes":1e999}}]: the
    numeral is beyond the largest finite number and is read as Infinity. *)
Definition infiniteTargetBlob : list (string * value) :=
  [("records", VArr []);
   ("goal", VObj [("mode", VStr "weekly"); ("targetMinutes", VNum PInf)])].

Definition recordOn (date : string) : Rec.t :=
  {| Rec.date := date; Rec.subject := "数学"; Rec.duration := ofZ 30 |}.

(** 2024-03-10 is day 19792; the instant of any local time of that day. *)
Definition on_2024_03_10 `{Host} (timeOfDay : Z) : Z :=
  UTC (MakeDate 19792 (TimeWithinDay timeOfDay)).

Definition specExampleEntries : list (string * string * Z) :=
  [("2024-03-10", "数学", 30); ("2024-03-10", "数学", 20);
   ("2024-03-10", "unknown", 99)].

Definition specExampleRecords : list Rec.t :=
  [ {| Rec.date := "2024-03-10"; Rec.subject := "数学"; Rec.duration := ofZ 30 |};
    {| Rec.date := "2024-03-10"; Rec.subject := "数学"; Rec.duration := ofZ 20 |};
    {| Rec.date := "2024-03-10"; Rec.subject := "unknown"; Rec.duration := ofZ 99 |} ].

(** [{"records":"none","goal":{"mode":"weekly","targetMinutes":120}}]: the
    records field is not an array, the goal is valid. *)
Definition badRecordsBlob : list (string * value) :=
  [("records", VStr "none");
   ("goal", VObj [("mode", VStr "weekly"); ("targetMinutes", VNum (ofZ 120))])].

(** [{"records":[{...}],"goal":{"mode":"weekly","targetMinutes":-5}}]: the
    records are valid, the target is not above 0. *)
Definition badTargetBlob : list (string * value) :=
  [("records", VArr [mathRecord]);
   ("goal", VObj [("mode", VStr "weekly"); ("targetMinutes", VNum (ofZ (-5)))])].

(** A record of thirty minutes whose subject is the name of a member every
    object inherits. *)
Definition constructorRecord : value :=
  newRecord "2024-03-10" (VStr "constructor") (ofZ 30).

(** ** Start-up and further reference definitions *)

(** [!raw] for what [getItem] returns. *)
Definition nothingStored (content : option raw) : bool :=
  match content with
  | None | Some EmptyText => true
  | Some _ => false
  end.

Section Init.
Context `{Host}.
(** What the goal input keeps of a string assigned to its [value]: the
    sanitization depends on the type the page gives the input. *)
Variable sanitize : string -> string.

Definition initGoalView : M unit :=
  data ← loadData;
  modify (withTargetInput (sanitize (NumberToString (targetMinutes (goal data))))).

(** [init]; registering the handlers changes nothing of the page. *)
Definition init (later : Z) : M unit :=
  content ← getItem STORAGE_KEY;
  (if nothingStored content then saveData (structuredClone defaultData)
   else mret tt);;
  initGoalView;;
  updateProgressView later.

End Init.

(** An array element as [JSON.stringify] and [JSON.parse] give it back. *)
Definition jsonItem (x : value) : value :=
  match x with VUndef => VNull | _ => jsonOf x end.

(** The target read back after a save. *)
Definition savedTarget (n : number) : number :=
  if Number_isFinite n then targetOr n else ofZ 300.

(** The controls show whether a start time is recorded. *)
Definition controlsMatch (w : World) : Prop :=
  startBtnDisabled w = bool_decide (is_Some (startAt (currentSession w)))
  /\ endBtnDisabled w = negb (bool_decide (is_Some (startAt (currentSession w)))).

(** A study record of a whole number of minutes, from its date, subject
    and minutes. *)
Definition entryRecord (e : string * string * Z) : Rec.t :=
  {| Rec.date := e.1.1; Rec.subject := e.1.2; Rec.duration := ofZ e.2 |}.

(** The entries whose date lies in the window of [now]. *)
Definition entriesInWindow `{Host} (now : Z) (es : list (string * string * Z))
    : list (string * string * Z) :=
  List.filter (fun e => inWindow now (Date_parse (e.1.1 ++ "T00:00:00"))) es.

(** The record the stop handler stores, written out field by field. *)
Definition storedRecord (date subject : string) (minutes : Z) : value :=
  VObj [("date", VStr date); ("subject", VStr subject);
        ("duration", VNum (ofZ minutes))].

(** The last element of an array, [undefined] when it is empty. *)
Definition lastRecord (records : list value) : value := List.last records VUndef.

(** The minutes of the entries whose subject passes a test. *)
Definition minutesWhere (test : string -> bool) (es : list (string * string * Z)) : Z :=
  fold_right (fun e rest => if test e.1.2 then e.2 + rest else rest) 0 es.

(** A page whose stored records hold a [null]: [{"records":[null]}], with
    数学 running since time 0. *)
Definition nullRecordPage : World :=
  stored (JSONText (VObj [("records", VArr [VNull])])) runningMath.

(** The first-visit page with the three records of the example stored. *)
Definition examplePage : World :=
  stored (JSON_stringify
            (snapshotValue {| records := map Rec.toValue specExampleRecords;
                              goal := goal defaultData |}))
         emptyPage.

(** * Properties *)

Ltac projections :=
  unfold withStorage, withSession, withGoalMessage, withRecordStatus,
    withButtons, withActiveSubject, withProgress;
  cbn [localStorage currentSession targetInput goalMessage recordStatus
       startBtnDisabled endBtnDisabled activeSubject weeklyTotalText
       remainingText subjectChart subject startAt].

Ltac unfoldM :=
  unfold getItem, setItem, tryCatch, lift, modify, gets;
  unfold mbind, M_bind, mret, M_ret; cbn beta iota.

(** ** The calendar *)

Example parse_2024_03_10 `{Host} :
  parseLocalDateTime "2024-03-10T00:00:00" = Some (localMidnight 19792).
Proof. reflexivity. Qed.
Example parse_2023_02_29 `{Host} : parseLocalDateTime "2023-02-29T00:00:00" = None.
Proof. reflexivity. Qed.
Example civil_epoch : civilFromDays 0 = (1970, 1, 1).
Proof. reflexivity. Qed.
Example civil_leap_day : civilFromDays 19782 = (2024, 2, 29).
Proof. reflexivity. Qed.

Lemma yearOfEra_range doe : 0 <= doe < 146097 -> 0 <= yearOfEra doe < 400.
Proof. intros Hr. unfold yearOfEra. Z.div_mod_to_equations. lia. Qed.

Lemma yearOfEra_day doe :
  0 <= doe < 146097 -> 0 <= doe - yearStart (yearOfEra doe) <= 365.
Proof.
  intros Hr. unfold yearOfEra, yearStart. Z.div_mod_to_equations. lia.
Qed.

Lemma monthIndex_inverse mp :
  0 <= mp <= 11 -> monthIndex (if mp <? 10 then mp + 3 else mp - 9) = mp.
Proof.
  intros Hr. unfold monthIndex.
  destruct (mp <? 10) eqn:E; [apply Z.ltb_lt in E | apply Z.ltb_ge in E].
  - destruct (2 <? mp + 3) eqn:F; [lia | apply Z.ltb_ge in F; lia].
  - destruct (2 <? mp - 9) eqn:F; [apply Z.ltb_lt in F; lia | lia].
Qed.

(** The day number of the civil date of a day number is that day number. *)
Lemma daysFromCivil_civilFromDays z :
  let '(y, m, d) := civilFromDays z in daysFromCivil y m d = z.
Proof.
  unfold civilFromDays.
  set (z' := z + 719468). set (era := z' / 146097).
  set (doe := z' - era * 146097).
  assert (Hr : 0 <= doe < 146097).
  { unfold doe, era. pose proof (Z.mod_pos_bound z' 146097 ltac:(lia)) as Hm.
    rewrite Z.mod_eq in Hm by lia. lia. }
  pose proof (yearOfEra_range doe Hr) as Hy.
  pose proof (yearOfEra_day doe Hr) as Hd.
  set (yoe := yearOfEra doe) in *.
  set (doy := doe - yearStart yoe) in *.
  set (mp := (5 * doy + 2) / 153).
  assert (Hmp : 0 <= mp <= 11).
  { unfold mp. Z.div_mod_to_equations. lia. }
  set (m := if mp <? 10 then mp + 3 else mp - 9).
  assert (Hm : monthIndex m = mp) by (apply monthIndex_inverse; exact Hmp).
  unfold daysFromCivil. rewrite Hm.
  replace (if m <=? 2 then yoe + era * 400 + (if m <=? 2 then 1 else 0) - 1
           else yoe + era * 400 + (if m <=? 2 then 1 else 0))
    with (yoe + era * 400) by (destruct (m <=? 2); lia).
  assert (He : (yoe + era * 400) / 400 = era).
  { rewrite Z.div_add by lia. rewrite Z.div_small by lia. lia. }
  cbv zeta. rewrite He.
  replace (yoe + era * 400 - era * 400) with yoe by lia.
  unfold doy, doe, z'. lia.
Qed.

Lemma daysFromCivil_day y m d : daysFromCivil y m 1 + d - 1 = daysFromCivil y m d.
Proof. unfold daysFromCivil. lia. Qed.

(** Replacing the day of the month of a time by that day plus [k] moves
    the time by [k] whole days. *)
Lemma MakeDay_shift t k :
  MakeDate (MakeDay (YearFromTime t) (MonthFromTime t) (DateFromTime t + k))
           (TimeWithinDay t)
  = t + k * msPerDay.
Proof.
  unfold MakeDay, YearFromTime, MonthFromTime, DateFromTime, MakeDate.
  pose proof (daysFromCivil_civilFromDays (Day t)) as Hrt.
  assert (Hmonth : 1 <= (civilFromDays (Day t)).1.2 <= 12).
  { unfold civilFromDays. cbn [fst snd].
    match goal with |- context [(5 * ?doy + 2) / 153] =>
      assert (Hmp : 0 <= (5 * doy + 2) / 153 <= 11)
    end.
    { set (z' := Day t + 719468).
      assert (Hr : 0 <= z' - z' / 146097 * 146097 < 146097).
      { pose proof (Z.mod_pos_bound z' 146097 ltac:(lia)) as Hm.
        rewrite Z.mod_eq in Hm by lia. lia. }
      pose proof (yearOfEra_day _ Hr). Z.div_mod_to_equations. lia. }
    destruct (_ <? 10) eqn:E; [apply Z.ltb_lt in E | apply Z.ltb_ge in E]; lia. }
  destruct (civilFromDays (Day t)) as [[y m] d]. cbn [fst snd] in *.
  replace ((m - 1) / 12) with 0 by (Z.div_mod_to_equations; lia).
  replace ((m - 1) mod 12 + 1) with m by (Z.div_mod_to_equations; lia).
  rewrite Z.add_0_r.
  replace (daysFromCivil y m 1 + (d + k) - 1)
    with (daysFromCivil y m d + k) by (rewrite <- (daysFromCivil_day y m d); lia).
  rewrite Hrt. unfold Day, TimeWithinDay.
  pose proof (Z.div_mod t msPerDay ltac:(unfold msPerDay; lia)). lia.
Qed.

Section DateFacts.
Context `{Host}.

(** Setting the day of the month moves a date by whole days on the local
    clock. *)
Lemma Date_setDate_shift t k :
  Date_setDate t (Date_getDate t + k) = UTC (LocalTime t + k * msPerDay).
Proof.
  unfold Date_setDate, Date_getDate. cbv zeta. rewrite MakeDay_shift. reflexivity.
Qed.

Lemma Date_setHoursZero_eq t :
  Date_setHoursZero t = localMidnight (Day (LocalTime t)).
Proof. reflexivity. Qed.

End DateFacts.

(** The day number of 1 January, as the language standard writes it
    (DayFromYear). *)
Lemma daysFromCivil_newYear y :
  daysFromCivil y 1 1
  = 365 * (y - 1970) + (y - 1969) / 4 - (y - 1901) / 100 + (y - 1601) / 400.
Proof.
  unfold daysFromCivil, yearStart, monthIndex. cbn [Z.leb Z.ltb Z.compare Pos.compare Pos.compare_cont].
  Z.div_mod_to_equations. lia.
Qed.

(** Months have the lengths of the calendar. *)
Lemma daysFromCivil_nextMonth y m :
  1 <= m <= 11 ->
  daysFromCivil y (m + 1) 1 = daysFromCivil y m 1 + daysInMonth y m.
Proof.
  intros Hm.
  assert (Hcases : m = 1 \/ m = 2 \/ m = 3 \/ m = 4 \/ m = 5 \/ m = 6 \/ m = 7
                   \/ m = 8 \/ m = 9 \/ m = 10 \/ m = 11) by lia.
  unfold daysInMonth.
  repeat (destruct Hcases as [-> | Hcases]); try subst m;
    unfold daysFromCivil, yearStart, monthIndex;
    repeat match goal with
           | |- context [Z.pos ?a + 1] =>
               let v := eval compute in (Z.pos a + 1) in
               change (Z.pos a + 1) with v
           end;
    cbn [Z.leb Z.ltb Z.eqb Z.compare Pos.compare Pos.compare_cont Pos.eqb orb];
    try (Z.div_mod_to_equations; lia).
  unfold isLeapYear.
  pose proof (Z.div_mod y 400 ltac:(lia)) as Hy.
  pose proof (Z.mod_pos_bound y 400 ltac:(lia)) as Hr.
  set (q := y / 400) in *. set (r := y mod 400) in *.
  assert (H4 : y mod 4 = r mod 4).
  { rewrite Hy. replace (400 * q + r) with (r + (100 * q) * 4) by lia.
    apply Z.mod_add. lia. }
  assert (H100 : y mod 100 = r mod 100).
  { rewrite Hy. replace (400 * q + r) with (r + (4 * q) * 100) by lia.
    apply Z.mod_add. lia. }
  rewrite H4, H100.
  destruct (Z.eq_dec r 0) as [Hz | Hnz].
  - assert (E1 : (y - 1) / 400 = q - 1) by (Z.div_mod_to_equations; lia).
    assert (E2 : y - 1 - (q - 1) * 400 = 399) by lia.
    rewrite E1, E2. replace (y - q * 400) with 0 by lia.
    rewrite Hz.
    change (if (0 mod 4 =? 0) && (negb (0 mod 100 =? 0) || (0 =? 0))
            then 29 else 28) with 29.
    Z.div_mod_to_equations. lia.
  - assert (E1 : (y - 1) / 400 = q) by (Z.div_mod_to_equations; lia).
    rewrite E1. replace (y - q * 400) with r by lia.
    replace (y - 1 - q * 400) with (r - 1) by lia.
    destruct (Z.eqb_spec (r mod 4) 0); destruct (Z.eqb_spec (r mod 100) 0);
      destruct (Z.eqb_spec r 0); cbn [negb orb andb];
      Z.div_mod_to_equations; lia.
Qed.

(** ** The example host *)

Example decimalNumeral_examples :
  decimalNumeral "300" = ofZ 300 /\ decimalNumeral "abc" = NaN
  /\ decimalNumeral "" = ofZ 0 /\ decimalNumeral "0" = ofZ 0.
Proof. repeat split; reflexivity. Qed.

(** 15:00 UTC is midnight of the next day in the zone of the example. *)
Example formatDate_example :
  @formatDate exampleHost (MakeDate 19791 (MakeTime 14 59 59 999)) = "2024-03-09"
  /\ @formatDate exampleHost (MakeDate 19791 (MakeTime 15 0 0 0)) = "2024-03-10".
Proof. split; reflexivity. Qed.

(** ** The store *)

Section StoreFacts.
Context `{Host}.

(** [loadData] is a reading of the storage key: it returns [decode] of the
    content, never throws, and leaves the page as it was. *)
Lemma loadData_eq w :
  loadData w = (Ok (decode (localStorage w !! STORAGE_KEY)), w).
Proof.
  unfold loadData, decode. unfoldM.
  destruct (localStorage w !! STORAGE_KEY) as [[| |v]|]; cbn; try reflexivity.
  destruct (readSnapshot v); reflexivity.
Qed.

(** On an object, the two fields are decoded side by side; only the
    conversion of the stored target to a number can throw. *)
Lemma readSnapshot_object props :
  readSnapshot (VObj props) =
  match ToNumber (storedTarget props) with
  | Ok n => Ok {| records := recordsOr (lookupProp "records" props);
                  goal := {| mode := "weekly"; targetMinutes := targetOr n |} |}
  | Throw => Throw
  end.
Proof.
  unfold readSnapshot, storedTarget, targetOr, recordsOr.
  cbn [Get GetOpt]. unfold mbind, result_bind at 1 2.
  assert (Hmode : forall m, (if strictEqStr m "weekly" then "weekly" else "weekly") = "weekly")
    by (intros m; destruct (strictEqStr m "weekly"); reflexivity).
  destruct (lookupProp "goal" props) as [| |b|n|s|items|g] eqn:Eg;
    cbn [Get GetOpt result_bind ToNumber]; rewrite ?Hmode; try reflexivity.
  destruct (ToNumber (lookupProp "targetMinutes" g)) as [n|]; [|reflexivity].
  cbn [result_bind]. destruct (Num.gt n (ofZ 0)); reflexivity.
Qed.

(** The progress update reads the store and writes only the progress
    fields of the view. *)
Lemma updateProgressView_frame now w :
  let w' := (updateProgressView now w).2 in
  localStorage w' = localStorage w /\ currentSession w' = currentSession w
  /\ goalMessage w' = goalMessage w /\ recordStatus w' = recordStatus w
  /\ startBtnDisabled w' = startBtnDisabled w
  /\ endBtnDisabled w' = endBtnDisabled w
  /\ targetInput w' = targetInput w /\ activeSubject w' = activeSubject w.
Proof.
  unfold updateProgressView. unfoldM. rewrite loadData_eq.
  destruct (filterLast7Days _ _) as [recent|]; [|cbn; tauto].
  destruct (weeklyTotalOf recent) as [total|]; [|cbn; tauto].
  destruct (calcSubjectTotals recent) as [totals|]; cbn; tauto.
Qed.

End StoreFacts.

Section HandlerFacts.
Context `{Host}.

Lemma noSubject_nonempty subj : subj <> "" -> noSubject (Some subj) = false.
Proof.
  intros Hne. unfold noSubject. apply String.eqb_neq. exact Hne.
Qed.

(** The world a stop leaves when a start time is recorded and a subject is
    selected, up to the progress fields. *)
Lemma endClick_running now later w subj started :
  currentSession w = {| subject := Some subj; startAt := Some started |} ->
  subj <> "" ->
  let data := decode (localStorage w !! STORAGE_KEY) in
  let minutes := durationMinutes (ofZ started) (ofZ now) in
  let saved :=
    {| records := records data ++ [newRecord (formatDate now) (VStr subj) minutes];
       goal := goal data |} in
  let w' := (endClick now later w).2 in
  localStorage w'
  = <[STORAGE_KEY := JSON_stringify (snapshotValue saved)]> (localStorage w)
  /\ currentSession w' = {| subject := Some subj; startAt := None |}
  /\ startBtnDisabled w' = false /\ endBtnDisabled w' = true
  /\ recordStatus w'
     = "「" ++ subj ++ "」を " ++ NumberToString minutes ++ " 分記録しました。"
  /\ activeSubject w' = activeSubject w /\ goalMessage w' = goalMessage w.
Proof.
  intros Hsess Hne. cbv zeta.
  unfold endClick. unfoldM. rewrite Hsess. cbn [startAt subject].
  rewrite (noSubject_nonempty subj Hne).
  rewrite bool_decide_eq_true_2 by (eexists; reflexivity).
  cbn [negb orb Date_getTime]. rewrite loadData_eq.
  unfold saveData. unfoldM.
  match goal with |- context [updateProgressView later ?w1] =>
    destruct (updateProgressView_frame later w1)
      as (Hs & Hc & Hg & Hr & Hb1 & Hb2 & _ & Ha)
  end.
  rewrite Hs, Hc, Hg, Hr, Hb1, Hb2, Ha. projections. rewrite Hsess.
  cbn [subject subjectValue subjectText]. tauto.
Qed.

End HandlerFacts.

Section StoreClaims.
Context `{Host}.

Lemma stored_lookup r w : localStorage (stored r w) !! STORAGE_KEY = Some r.
Proof. unfold stored. projections. apply lookup_insert_eq. Qed.

(** C10.  [loadData] never writes: whatever the storage key holds, absent,
    empty, not JSON or JSON of any shape, the page after the call (its
    storage included) is the page before it; the defaults that repair a
    bad blob exist only in the returned snapshot. *)
Theorem loadData_writes_nothing w :
  (loadData w).2 = w /\ localStorage (loadData w).2 = localStorage w.
Proof.
  rewrite loadData_eq. cbn [snd]. split; reflexivity.
Qed.

(** C4, as amended.  [loadData] never throws.  On a blob that parses as an
    object and whose stored target does not convert to Infinity, the two
    fields are read independently as long as that conversion returns:
    [records] is the stored array, or the empty list when the field is not
    an array, and the target is the stored one when it converts to a
    finite number above 0, and 300 otherwise, each on its own.  When the
    conversion throws, the whole default snapshot is returned. *)
Theorem loadData_validates_each_field w props :
  ToNumber (storedTarget props) <> Ok PInf ->
  isOk (loadData w).1 = true
  /\ (loadData (stored (JSONText (VObj props)) w)).1
     = Ok match ToNumber (storedTarget props) with
          | Ok n =>
              {| records := recordsOr (lookupProp "records" props);
                 goal := {| mode := "weekly";
                            targetMinutes := finiteTargetOr n |} |}
          | Throw => defaultData
          end.
Proof.
  intros Hfinite. split.
  - rewrite loadData_eq. reflexivity.
  - rewrite loadData_eq, stored_lookup. cbn [fst decode].
    rewrite readSnapshot_object.
    destruct (ToNumber (storedTarget props)) as [n|]; [|reflexivity].
    destruct n as [| | |q]; try reflexivity.
    contradiction Hfinite. reflexivity.
Qed.

(** C3.  A stored target that is the number Infinity passes the test
    [Number(...) > 0] and is returned as it is, not replaced by 300. *)
Theorem loadData_keeps_infinite_target w :
  (loadData (stored (JSONText (VObj infiniteTargetBlob)) w)).1
  = Ok {| records := []; goal := {| mode := "weekly"; targetMinutes := PInf |} |}
  /\ Number_isFinite PInf = false.
Proof.
  rewrite loadData_eq, stored_lookup. split; reflexivity.
Qed.

End StoreClaims.

(** An instance: a blob whose records field is not an array keeps its
    goal, and a blob whose target is not above 0 keeps its records. *)
Lemma loadData_validates_each_field_witness :
  (@loadData exampleHost (stored (JSONText (VObj badRecordsBlob)) emptyPage)).1
  = Ok {| records := [];
          goal := {| mode := "weekly"; targetMinutes := ofZ 120 |} |}
  /\ (@loadData exampleHost (stored (JSONText (VObj badTargetBlob)) emptyPage)).1
     = Ok {| records := [mathRecord];
             goal := {| mode := "weekly"; targetMinutes := ofZ 300 |} |}.
Proof.
  split.
  - apply (@loadData_validates_each_field exampleHost emptyPage badRecordsBlob).
    discriminate.
  - apply (@loadData_validates_each_field exampleHost emptyPage badTargetBlob).
    discriminate.
Defined.

(** C4, counterexample.  The stored [records] field is a valid array of one
    record and the stored target is an object with an own [toString]
    member: converting it throws, the handler of [loadData] answers with
    the default snapshot, and the valid array is not kept. *)
Lemma loadData_drops_valid_records :
  recordsOr (lookupProp "records" unconvertibleTargetBlob) = [mathRecord]
  /\ (forall h : Host,
        (loadData (stored (JSONText (VObj unconvertibleTargetBlob)) emptyPage)).1
        = Ok {| records := [];
                goal := {| mode := "weekly"; targetMinutes := ofZ 300 |} |}).
Proof.
  split; [reflexivity|].
  intros h. rewrite loadData_eq, stored_lookup. reflexivity.
Qed.

(** ** The session timer *)

Lemma Math_max_ofZ a b : Math_max (ofZ a) (ofZ b) = ofZ (Z.max a b).
Proof.
  unfold Math_max, ofZ, Num.lt, Qcompare. cbn [inject_Z Qnum Qden].
  rewrite !Z.mul_1_r.
  destruct (Z.compare_spec a b) as [E|E|E]; f_equal; f_equal; lia.
Qed.

Lemma Num_add_ofZ a b : Num.add (ofZ a) (ofZ b) = ofZ (a + b).
Proof.
  unfold Num.add, ofZ, Qplus, inject_Z. cbn [Qnum Qden Pos.mul].
  do 2 f_equal. lia.
Qed.

Lemma Num_or_ofZ z : Num.or (ofZ z) (ofZ 0) = ofZ z.
Proof.
  unfold Num.or, Num.truthy, ofZ, Num.isZero, Qcompare.
  cbn [inject_Z Qnum Qden]. change (0 * 1) with 0. rewrite Z.mul_1_r.
  destruct (z ?= 0) eqn:E; try reflexivity.
  apply Z.compare_eq in E. subst z. reflexivity.
Qed.

Lemma durationMinutes_nearest started now :
  durationMinutes (ofZ started) (ofZ now)
  = ofZ (Z.max 1 (nearestMinute (now - started))).
Proof.
  unfold durationMinutes. rewrite <- Math_max_ofZ. f_equal.
  unfold Num.sub, Num.neg, Num.add, Num.div, ofZ.
  replace (Num.isZero (inject_Z 60000)) with false by reflexivity.
  unfold Math_round, ofZ. f_equal. f_equal.
  cbv [nearestMinute Qfloor Qplus Qmult Qinv Qdiv Qopp inject_Z Qnum Qden].
  change (Z.pos (1 * 1 * 60000 * 2)) with (60000 * 2).
  change (Z.pos (1 * 1 * 60000)) with 60000.
  replace ((now * 1 + - started * 1) * 1 * 2 + 1 * 60000)
    with ((now - started + 30000) * 2) by lia.
  apply Z.div_mul_cancel_r; lia.
Qed.

Lemma nearestMinute_bounds ms :
  let r := nearestMinute ms in 60000 * r - 30000 <= ms < 60000 * r + 30000.
Proof. unfold nearestMinute. cbv zeta. Z.div_mod_to_equations. lia. Qed.

Section SessionClaims.
Context `{Host}.

(** C1, as amended.  After a stop made while a start time is recorded and a
    subject is selected, the start time is [null] again and the subject is
    the one that was selected: the timer is back in the state "subject
    selected", the same button still active, the start control enabled and
    the stop control disabled. *)
Theorem stop_clears_start_keeps_subject now later w subj started :
  currentSession w = {| subject := Some subj; startAt := Some started |} ->
  subj <> "" ->
  let w' := (endClick now later w).2 in
  currentSession w' = {| subject := Some subj; startAt := None |}
  /\ activeSubject w' = activeSubject w
  /\ startBtnDisabled w' = false /\ endBtnDisabled w' = true.
Proof.
  intros Hsess Hne.
  destruct (endClick_running now later w subj started Hsess Hne)
    as (_ & Hc & Hb1 & Hb2 & _ & Ha & _).
  cbv zeta. tauto.
Qed.

End SessionClaims.

(** C1, counterexample.  数学 is selected and the timer was started at time
    0; the stop one minute later is successful, it stores a record of one
    minute, and the session still holds the subject 数学. *)
Lemma stop_keeps_subject_example :
  (forall h : Host,
     localStorage (endClick 60000 60001 runningMath).2 !! STORAGE_KEY
     = Some (JSONText
               (VObj [("records",
                       VArr [newRecord (formatDate 60000) (VStr "数学") (ofZ 1)]);
                      ("goal", VObj [("mode", VStr "weekly");
                                     ("targetMinutes", VNum (ofZ 300))])])))
  /\ (forall h : Host,
        currentSession (endClick 60000 60001 runningMath).2
        = {| subject := Some "数学"; startAt := None |}).
Proof.
  split; intros h.
  - destruct (endClick_running 60000 60001 runningMath "数学" 0 eq_refl ltac:(discriminate))
      as (Hs & _).
    cbv zeta in Hs. rewrite Hs, lookup_insert_eq. reflexivity.
  - destruct (endClick_running 60000 60001 runningMath "数学" 0 eq_refl ltac:(discriminate))
      as (_ & Hc & _).
    exact Hc.
Qed.

(** An instance: 数学 started at time 0 and stopped one minute later. *)
Lemma stop_clears_start_keeps_subject_witness :
  let w' := (@endClick exampleHost 60000 60001 runningMath).2 in
  currentSession w' = {| subject := Some "数学"; startAt := None |}
  /\ activeSubject w' = Some "数学"
  /\ startBtnDisabled w' = false /\ endBtnDisabled w' = true.
Proof.
  apply (@stop_clears_start_keeps_subject exampleHost 60000 60001 runningMath "数学" 0).
  - reflexivity.
  - discriminate.
Defined.

(** ** The goal form *)

Lemma Math_round_small q : (0 < q)%Q -> (q < 1 # 2)%Q -> Math_round (Fin q) = ofZ 0.
Proof.
  intros Hpos Hhalf. unfold Math_round. f_equal.
  assert (Hlow : 0 <= Qfloor (q + (1 # 2))).
  { change 0 with (Qfloor (inject_Z 0)). apply Qfloor_resp_le.
    apply Qle_trans with q; [apply Qlt_le_weak; exact Hpos|].
    rewrite <- (Qplus_0_r q) at 1. apply Qplus_le_r. discriminate. }
  assert (Hhigh : Qfloor (q + (1 # 2)) < 1).
  { rewrite Zlt_Qlt. eapply Qle_lt_trans; [apply Qfloor_le|].
    apply Qlt_le_trans with ((1 # 2) + (1 # 2))%Q;
      [apply Qplus_lt_l; exact Hhalf | discriminate]. }
  lia.
Qed.

Section GoalClaims.
Context `{Host}.

(** The world a goal save leaves when the value is accepted, as far as the
    store and the message go. *)
Lemma saveGoalClick_accepted now w :
  let value := StringToNumber (targetInput w) in
  Number_isFinite value = true -> Num.le value (ofZ 0) = false ->
  let data := decode (localStorage w !! STORAGE_KEY) in
  let saved := {| records := records data;
                  goal := {| mode := "weekly"; targetMinutes := Math_round value |} |} in
  let w' := (saveGoalClick now w).2 in
  localStorage w'
  = <[STORAGE_KEY := JSON_stringify (snapshotValue saved)]> (localStorage w)
  /\ goalMessage w'
     = "目標 " ++ NumberToString (Math_round value) ++ " 分を保存しました。".
Proof.
  cbv zeta. intros Hfin Hle.
  unfold saveGoalClick. unfoldM. rewrite Hfin, Hle. cbn [negb orb].
  rewrite loadData_eq. unfold saveData. unfoldM.
  match goal with |- context [updateProgressView now ?w1] =>
    destruct (updateProgressView_frame now w1) as (Hs & _ & Hg & _)
  end.
  rewrite Hs, Hg. projections. split; reflexivity.
Qed.

(** C7.  When the typed value converts to [NaN] or to a number that is not
    above 0, the click returns normally having changed one thing, the
    message of the goal form: the storage, and with it the persisted goal
    and records, is what it was. *)
Theorem saveGoalClick_rejects now w :
  Num.isNaN (StringToNumber (targetInput w)) = true
  \/ Num.le (StringToNumber (targetInput w)) (ofZ 0) = true ->
  saveGoalClick now w
  = (Ok tt, withGoalMessage "1以上の数値を入力してください。" w)
  /\ localStorage (saveGoalClick now w).2 = localStorage w.
Proof.
  intros Hbad.
  assert (Heq : saveGoalClick now w
                = (Ok tt, withGoalMessage "1以上の数値を入力してください。" w)).
  { unfold saveGoalClick. unfoldM.
    destruct Hbad as [Hnan | Hle].
    - destruct (StringToNumber (targetInput w)); try discriminate Hnan. reflexivity.
    - rewrite Hle, orb_true_r. reflexivity. }
  split; [exact Heq | rewrite Heq; reflexivity].
Qed.

(** C2.  A value strictly between 0 and one half passes the test of the
    goal form, is rounded to 0 and persisted as the target 0, which the
    message confirms; the next load rejects that target and answers 300. *)
Theorem saveGoalClick_persists_zero now w q :
  StringToNumber (targetInput w) = Fin q -> (0 < q)%Q -> (q < 1 # 2)%Q ->
  let data := decode (localStorage w !! STORAGE_KEY) in
  let w' := (saveGoalClick now w).2 in
  localStorage w' !! STORAGE_KEY
  = Some (JSON_stringify
            (snapshotValue
               {| records := records data;
                  goal := {| mode := "weekly"; targetMinutes := ofZ 0 |} |}))
  /\ goalMessage w' = "目標 " ++ NumberToString (ofZ 0) ++ " 分を保存しました。"
  /\ targetMinutes (goal (decode (localStorage w' !! STORAGE_KEY))) = ofZ 300.
Proof.
  intros Hv Hpos Hhalf. cbv zeta.
  destruct (saveGoalClick_accepted now w) as (Hs & Hg).
  - rewrite Hv. reflexivity.
  - rewrite Hv. unfold Num.le, Num.lt, ofZ. cbn [Num.isNaN negb andb].
    change (inject_Z 0) with 0%Q.
    rewrite (proj1 (Qlt_alt 0 q) Hpos). reflexivity.
  - rewrite Hv, (Math_round_small q Hpos Hhalf) in Hs, Hg.
    rewrite Hs, Hg, lookup_insert_eq. split; [reflexivity|]. split; [reflexivity|].
    unfold decode, JSON_stringify.
    cbn [jsonOf snapshotValue records goal mode targetMinutes Number_isFinite ofZ].
    rewrite readSnapshot_object. reflexivity.
Qed.

End GoalClaims.

(** An instance: the value 0 typed on the first-visit page. *)
Lemma saveGoalClick_rejects_witness :
  @saveGoalClick exampleHost 0 (withTargetInput "0" emptyPage)
  = (Ok tt, withGoalMessage "1以上の数値を入力してください。"
              (withTargetInput "0" emptyPage))
  /\ localStorage (@saveGoalClick exampleHost 0 (withTargetInput "0" emptyPage)).2
     = localStorage (withTargetInput "0" emptyPage).
Proof.
  apply (@saveGoalClick_rejects exampleHost 0 (withTargetInput "0" emptyPage)).
  right. reflexivity.
Defined.

(** An instance: the value 0.4 typed on the first-visit page. *)
Lemma saveGoalClick_persists_zero_witness :
  let w' := (@saveGoalClick exampleHost 0 (withTargetInput "0.4" emptyPage)).2 in
  localStorage w' !! STORAGE_KEY
  = Some (JSONText
            (VObj [("records", VArr []);
                   ("goal", VObj [("mode", VStr "weekly");
                                  ("targetMinutes", VNum (ofZ 0))])]))
  /\ goalMessage w' = "目標 0 分を保存しました。"
  /\ targetMinutes (goal (@decode exampleHost (localStorage w' !! STORAGE_KEY)))
     = ofZ 300.
Proof.
  apply (@saveGoalClick_persists_zero exampleHost 0
           (withTargetInput "0.4" emptyPage) (4 # 10)%Q).
  - reflexivity.
  - reflexivity.
  - reflexivity.
Defined.

(** ** Further properties of the handlers *)

Lemma Math_round_from_half q : (1 # 2 <= q)%Q -> 1 <= Qfloor (q + (1 # 2)).
Proof.
  intros Hq. change 1 with (Qfloor (inject_Z 1)). apply Qfloor_resp_le.
  apply Qle_trans with ((1 # 2) + (1 # 2))%Q; [discriminate|].
  apply Qplus_le_l. exact Hq.
Qed.

Lemma Num_gt_ofZ a b : Num.gt (ofZ a) (ofZ b) = (b <? a).
Proof.
  unfold Num.gt, Num.lt, ofZ, Qcompare. cbn [inject_Z Qnum Qden].
  rewrite !Z.mul_1_r. unfold Z.ltb. destruct (b ?= a); reflexivity.
Qed.

Section HandlerExtras.
Context `{Host}.

(** Selecting a subject replaces the subject of the session and nothing
    else of it: a start time already recorded stays, so a subject chosen
    while the timer runs is the one the next stop records. *)
Theorem selectSubject_keeps_start s w :
  (selectSubject s w).1 = Ok tt
  /\ currentSession (selectSubject s w).2
     = {| subject := Some s; startAt := startAt (currentSession w) |}
  /\ activeSubject (selectSubject s w).2 = Some s
  /\ localStorage (selectSubject s w).2 = localStorage w.
Proof.
  unfold selectSubject. unfoldM. projections. repeat split; reflexivity.
Qed.

(** A start without a subject only shows a message. *)
Theorem startClick_needs_subject now w :
  noSubject (subject (currentSession w)) = true ->
  startClick now w = (Ok tt, withRecordStatus "先に科目を選択してください。" w).
Proof.
  intros Hs. unfold startClick. unfoldM. rewrite Hs. reflexivity.
Qed.

(** A start with a subject selected records the time of the click,
    disables the start control and enables the stop control; the subject
    and the storage stay. *)
Theorem startClick_records_time now w :
  noSubject (subject (currentSession w)) = false ->
  let w' := (startClick now w).2 in
  (startClick now w).1 = Ok tt
  /\ currentSession w'
     = {| subject := subject (currentSession w); startAt := Some now |}
  /\ startBtnDisabled w' = true /\ endBtnDisabled w' = false
  /\ localStorage w' = localStorage w.
Proof.
  intros Hs. unfold startClick. unfoldM. rewrite Hs. projections.
  repeat split; reflexivity.
Qed.

(** A stop with no start time recorded, or with no subject, only shows a
    message: the session, the storage and the controls are untouched. *)
Theorem endClick_rejects now later w :
  startAt (currentSession w) = None
  \/ noSubject (subject (currentSession w)) = true ->
  endClick now later w
  = (Ok tt, withRecordStatus "開始してから終了してください。" w).
Proof.
  intros Hbad. unfold endClick. unfoldM.
  destruct Hbad as [Hnone | Hsub].
  - rewrite Hnone. rewrite bool_decide_eq_false_2 by (intros [x Hx]; discriminate Hx).
    reflexivity.
  - rewrite Hsub, orb_true_r. reflexivity.
Qed.

(** A goal value of at least one half is accepted, rounded to a whole
    number of at least 1 and persisted, and the next load returns that
    target. *)
Theorem saveGoalClick_persists_rounded later w q :
  StringToNumber (targetInput w) = Fin q -> (1 # 2 <= q)%Q ->
  let k := Qfloor (q + (1 # 2)) in
  let data := decode (localStorage w !! STORAGE_KEY) in
  let w' := (saveGoalClick later w).2 in
  1 <= k
  /\ localStorage w' !! STORAGE_KEY
     = Some (JSON_stringify
               (snapshotValue
                  {| records := records data;
                     goal := {| mode := "weekly"; targetMinutes := ofZ k |} |}))
  /\ targetMinutes (goal (decode (localStorage w' !! STORAGE_KEY))) = ofZ k.
Proof.
  intros Hv Hq. cbv zeta.
  pose proof (Math_round_from_half q Hq) as Hk.
  split; [exact Hk|].
  destruct (saveGoalClick_accepted later w) as (Hs & _).
  - rewrite Hv. reflexivity.
  - rewrite Hv. unfold Num.le, Num.lt, ofZ. cbn [Num.isNaN negb andb].
    change (inject_Z 0) with 0%Q.
    assert (Hpos : (0 < q)%Q) by (eapply Qlt_le_trans; [|exact Hq]; reflexivity).
    rewrite (proj1 (Qlt_alt 0 q) Hpos). reflexivity.
  - rewrite Hv in Hs. cbn [Math_round] in Hs.
    rewrite Hs, lookup_insert_eq. split; [reflexivity|].
    unfold decode, JSON_stringify.
    cbn [jsonOf snapshotValue records goal mode targetMinutes Number_isFinite ofZ].
    rewrite readSnapshot_object.
    cbn [storedTarget lookupProp String.eqb Ascii.eqb Bool.eqb ToNumber targetMinutes goal].
    unfold targetOr. fold (ofZ 0). rewrite Num_gt_ofZ.
    replace (0 <? Qfloor (q + (1 # 2))) with true by (symmetry; apply Z.ltb_lt; lia).
    reflexivity.
Qed.

End HandlerExtras.

(** An instance: a start on the first-visit page. *)
Lemma startClick_needs_subject_witness :
  @startClick exampleHost 0 emptyPage
  = (Ok tt, withRecordStatus "先に科目を選択してください。" emptyPage).
Proof.
  apply (@startClick_needs_subject exampleHost 0 emptyPage). reflexivity.
Defined.

(** An instance: 数学 selected on the first-visit page, then a start. *)
Lemma startClick_records_time_witness :
  let w := (selectSubject "数学" emptyPage).2 in
  let w' := (@startClick exampleHost 5000 w).2 in
  (@startClick exampleHost 5000 w).1 = Ok tt
  /\ currentSession w' = {| subject := Some "数学"; startAt := Some 5000 |}
  /\ startBtnDisabled w' = true /\ endBtnDisabled w' = false
  /\ localStorage w' = localStorage emptyPage.
Proof.
  apply (@startClick_records_time exampleHost 5000
           (selectSubject "数学" emptyPage).2).
  reflexivity.
Defined.

(** An instance: a stop on the first-visit page. *)
Lemma endClick_rejects_witness :
  @endClick exampleHost 0 1 emptyPage
  = (Ok tt, withRecordStatus "開始してから終了してください。" emptyPage).
Proof.
  apply (@endClick_rejects exampleHost 0 1 emptyPage). left. reflexivity.
Defined.

(** An instance: the value 90.5 is persisted as 91. *)
Lemma saveGoalClick_persists_rounded_witness :
  let w' := (@saveGoalClick exampleHost 0 (withTargetInput "90.5" emptyPage)).2 in
  1 <= 91
  /\ localStorage w' !! STORAGE_KEY
     = Some (JSONText
               (VObj [("records", VArr []);
                      ("goal", VObj [("mode", VStr "weekly");
                                     ("targetMinutes", VNum (ofZ 91))])]))
  /\ targetMinutes (goal (@decode exampleHost (localStorage w' !! STORAGE_KEY)))
     = ofZ 91.
Proof.
  apply (@saveGoalClick_persists_rounded exampleHost 0
           (withTargetInput "90.5" emptyPage) (905 # 10)%Q).
  - reflexivity.
  - discriminate.
Defined.

(** ** The aggregation *)

Section WindowFacts.
Context `{Host}.

(** The start of the window in any zone: the instant the host gives for
    the midnight of today, read on the local clock and moved back six days
    there. *)
Lemma windowStart_eq now :
  windowStart now
  = UTC (LocalTime (localMidnight (Day (LocalTime now))) - 6 * msPerDay).
Proof.
  unfold windowStart.
  change (Date_getDate (Date_setHoursZero now) - 6)
    with (Date_getDate (Date_setHoursZero now) + -6).
  rewrite Date_setDate_shift, Date_setHoursZero_eq. f_equal; lia.
Qed.

Lemma inLast7Days_eq now record :
  inLast7Days now record
  = match dateText record with
    | Ok s =>
        Ok (Date_ge (Date_parse (s ++ "T00:00:00")) (Some (windowStart now))
            && Date_le (Date_parse (s ++ "T00:00:00")) (Some now))
    | Throw => Throw
    end.
Proof.
  unfold inLast7Days, dateText.
  destruct (Get record "date") as [d|]; [|reflexivity].
  cbn [mbind result_bind]. destruct (ToString d); reflexivity.
Qed.

Lemma dateText_record (r : Rec.t) : dateText (Rec.toValue r) = Ok (Rec.date r).
Proof. reflexivity. Qed.

End WindowFacts.

Lemma Day_MakeDate n t : Day (MakeDate n (TimeWithinDay t)) = n.
Proof.
  unfold MakeDate, TimeWithinDay, Day.
  pose proof (Z.mod_pos_bound t msPerDay ltac:(unfold msPerDay; lia)) as Hr.
  unfold msPerDay in *. Z.div_mod_to_equations. lia.
Qed.

(** ** The window in a zone without transitions *)

Section ConstantZone.
Context `{Host}.
Variable off : Z.
Hypothesis zone : constantOffset off.

Lemma LocalTime_UTC t : LocalTime (UTC t) = t.
Proof. destruct zone as [Hl Hu]. rewrite Hl, Hu. lia. Qed.

Lemma windowStart_constant now :
  windowStart now = localMidnight (Day (LocalTime now) - 6).
Proof.
  rewrite windowStart_eq. unfold localMidnight at 1. rewrite LocalTime_UTC.
  unfold localMidnight, MakeDate. f_equal. lia.
Qed.

Lemma inLast7Days_window now record :
  inLast7Days now record
  = match dateText record with
    | Ok s => Ok (inWindow now (Date_parse (s ++ "T00:00:00")))
    | Throw => Throw
    end.
Proof.
  rewrite inLast7Days_eq, windowStart_constant.
  destruct (dateText record) as [s|]; [|reflexivity].
  unfold inWindow, Date_ge, Date_le. destruct (Date_parse _); reflexivity.
Qed.

(** On any list of values: the filter throws when the date text of some
    element cannot be read, and else keeps the elements whose date is in
    the window. *)
Lemma filterLast7Days_values now records :
  filterLast7Days now records
  = (if forallb (fun r => isOk (dateText r)) records
     then Ok (List.filter (fun r => inWindow now (recordDate r)) records)
     else Throw).
Proof.
  unfold filterLast7Days.
  induction records as [|x rest IH]; [reflexivity|].
  cbn [filterM forallb List.filter]. rewrite inLast7Days_window, IH.
  unfold recordDate. destruct (dateText x) as [s|]; [|reflexivity].
  cbn [mbind result_bind isOk andb].
  destruct (forallb _ rest); [|reflexivity].
  cbn [mbind result_bind]. destruct (inWindow now _); reflexivity.
Qed.

Lemma filterLast7Days_records now (rs : list Rec.t) :
  filterLast7Days now (map Rec.toValue rs)
  = Ok (map Rec.toValue
          (List.filter
             (fun r => inWindow now (Date_parse (Rec.date r ++ "T00:00:00"))) rs)).
Proof.
  unfold filterLast7Days.
  induction rs as [|r rs IH]; [reflexivity|].
  cbn [map filterM List.filter]. rewrite inLast7Days_window, dateText_record, IH.
  cbn [mbind result_bind].
  destruct (inWindow now _); reflexivity.
Qed.

Lemma filterLast7Days_entries now (es : list (string * string * Z)) :
  filterLast7Days now (map Rec.toValue (map entryRecord es))
  = Ok (map Rec.toValue (map entryRecord (entriesInWindow now es))).
Proof.
  rewrite filterLast7Days_records. do 2 f_equal. unfold entriesInWindow.
  induction es as [|e es IH]; [reflexivity|].
  cbn [map List.filter]. rewrite IH.
  change (Rec.date (entryRecord e)) with e.1.1.
  destruct (inWindow now _); reflexivity.
Qed.

(** The midnight of the local day [n] is in the window exactly when [n] is
    one of the seven days that end today. *)
Lemma inWindow_midnight now n :
  inWindow now (Some (localMidnight n))
  = (Day (LocalTime now) - 6 <=? n) && (n <=? Day (LocalTime now)).
Proof.
  unfold inWindow, localMidnight, MakeDate. destruct zone as [Hl Hu].
  rewrite !Hu, Hl. unfold Day.
  pose proof (Z.div_mod (now + off) msPerDay ltac:(unfold msPerDay; lia)) as Hdm.
  pose proof (Z.mod_pos_bound (now + off) msPerDay ltac:(unfold msPerDay; lia)) as Hr.
  unfold msPerDay in *.
  set (today := (now + off) / 86400000) in *.
  f_equal.
  - destruct (Z.leb_spec (today - 6) n);
      destruct (Z.leb_spec ((today - 6) * 86400000 + 0 - off) (n * 86400000 + 0 - off));
      try reflexivity; lia.
  - destruct (Z.leb_spec n today);
      destruct (Z.leb_spec (n * 86400000 + 0 - off) now); try reflexivity; lia.
Qed.

Lemma Day_on_2024_03_10 t : Day (LocalTime (on_2024_03_10 t)) = 19792.
Proof. unfold on_2024_03_10. rewrite LocalTime_UTC. apply Day_MakeDate. Qed.


End ConstantZone.

Lemma exampleHost_zone : @constantOffset exampleHost exampleOffset.
Proof. split; intros t; reflexivity. Qed.



(** Where summer time begins at local midnight, the midnight of that day
    does not exist: at noon of such a day the window starts at 01:00 of the
    sixth day back, and a record of that day is not kept. *)
Example window_where_midnight_is_skipped :
  let now := MakeDate 19974 (MakeTime 15 0 0 0) in
  @LocalTime midnightTransitionHost now = MakeDate 19974 (MakeTime 12 0 0 0)
  /\ @LocalTime midnightTransitionHost (@windowStart midnightTransitionHost now)
     = MakeDate 19968 (MakeTime 1 0 0 0)
  /\ @filterLast7Days midnightTransitionHost now
       (map Rec.toValue [recordOn "2024-09-02"; recordOn "2024-09-03";
                         recordOn "2024-09-08"])
     = Ok (map Rec.toValue [recordOn "2024-09-03"; recordOn "2024-09-08"]).
Proof. cbv zeta. repeat split; vm_compute; reflexivity. Qed.


Lemma subject_not_proto s : In s SUBJECTS -> String.eqb s "__proto__" = false.
Proof.
  intros Hin. repeat (destruct Hin as [<- | Hin]; [reflexivity|]). destruct Hin.
Qed.

Lemma inList_false k l : inList k l = false -> ~ In k l.
Proof.
  unfold inList. intros Hf Hin.
  assert (Ht : existsb (String.eqb k) l = true).
  { apply existsb_exists. exists k. split; [exact Hin | apply String.eqb_refl]. }
  congruence.
Qed.

Section TotalsClaims.
Context `{Host}.

Lemma addToTotals_record totals r :
  addToTotals totals (Rec.toValue r)
  = Ok match readTotal totals (Rec.subject r) with
       | Some old =>
           writeTotal totals (Rec.subject r)
             (plusNumber old (Num.or (Rec.duration r) (ofZ 0)))
       | None => totals
       end.
Proof.
  unfold addToTotals, durationOf, Rec.toValue, newRecord.
  cbn [Get lookupProp String.eqb Ascii.eqb Bool.eqb mbind result_bind ToString ToNumber].
  destruct (readTotal totals (Rec.subject r)); reflexivity.
Qed.

(** One record moves the bucket of its own subject and no other. *)
Lemma addToTotals_bucket totals r s a :
  In s SUBJECTS -> totals !! s = Some (TNum a) ->
  exists totals',
    addToTotals totals (Rec.toValue r) = Ok totals'
    /\ totals' !! s
       = Some (TNum (if String.eqb (Rec.subject r) s
                     then Num.add a (Num.or (Rec.duration r) (ofZ 0))
                     else a)).
Proof.
  intros Hin Hs. rewrite addToTotals_record. eexists. split; [reflexivity|].
  destruct (String.eqb_spec (Rec.subject r) s) as [-> | Hne].
  - unfold readTotal. rewrite Hs. unfold writeTotal.
    rewrite (subject_not_proto s Hin). rewrite lookup_insert_eq. reflexivity.
  - destruct (readTotal totals (Rec.subject r)); [|exact Hs].
    unfold writeTotal. destruct (String.eqb _ "__proto__"); [exact Hs|].
    rewrite lookup_insert_ne by exact Hne. exact Hs.
Qed.

Lemma foldM_addToTotals_ok (rs : list Rec.t) totals :
  exists totals', foldM addToTotals totals (map Rec.toValue rs) = Ok totals'.
Proof.
  revert totals. induction rs as [|r rs IH]; intros totals.
  - eexists. reflexivity.
  - cbn [map foldM]. rewrite addToTotals_record. cbn [mbind result_bind]. apply IH.
Qed.

Lemma foldM_addToTotals_bucket (rs : list Rec.t) totals totals' s a :
  In s SUBJECTS -> totals !! s = Some (TNum a) ->
  foldM addToTotals totals (map Rec.toValue rs) = Ok totals' ->
  totals' !! s
  = Some (TNum (fold_left
                  (fun acc r =>
                     if String.eqb (Rec.subject r) s
                     then Num.add acc (Num.or (Rec.duration r) (ofZ 0))
                     else acc)
                  rs a)).
Proof.
  intros Hin. revert totals a.
  induction rs as [|r rs IH]; intros totals a Hs Hfold.
  - cbn in Hfold. injection Hfold as <-. exact Hs.
  - cbn [map foldM] in Hfold.
    destruct (addToTotals_bucket totals r s a Hin Hs) as (t1 & Hstep & Hs1).
    rewrite Hstep in Hfold. cbn [mbind result_bind] in Hfold.
    cbn [fold_left]. exact (IH t1 _ Hs1 Hfold).
Qed.

Lemma zeroTotals_subject s : In s SUBJECTS -> zeroTotals !! s = Some (TNum (ofZ 0)).
Proof.
  intros Hin. repeat (destruct Hin as [<- | Hin]; [reflexivity|]). destruct Hin.
Qed.

Lemma zeroTotals_other k : inList k SUBJECTS = false -> zeroTotals !! k = None.
Proof.
  intros Hk. apply inList_false in Hk.
  unfold zeroTotals. apply not_elem_of_list_to_map_1.
  change (k ∉ SUBJECTS). rewrite list_elem_of_In. exact Hk.
Qed.

Lemma inherited_not_subject k :
  inList k objectPrototypeKeys = true -> inList k SUBJECTS = false.
Proof.
  intros Hk. apply existsb_exists in Hk. destruct Hk as (x & Hin & Heq).
  apply String.eqb_eq in Heq. subst x.
  repeat (destruct Hin as [<- | Hin]; [reflexivity|]). destruct Hin.
Qed.

(** C8.  A record whose subject is outside the closed set is not ignored
    when that subject is the name of a member every object inherits (other
    than [__proto__]): the lookup in the totals finds the inherited member,
    the sum is stored, and the mapping returned holds a property under
    that name that is not a number.  The buckets of the five subjects are
    not touched by it.  A record whose subject is any other name outside
    the closed set is ignored: the totals are returned as they were. *)
Theorem calcSubjectTotals_keeps_inherited_name (date k : string) (d : number) :
  inList k objectPrototypeKeys = true -> k <> "__proto__" ->
  inList k SUBJECTS = false
  /\ zeroTotals !! k = None
  /\ calcSubjectTotals [newRecord date (VStr k) d] = Ok (<[k := TOther]> zeroTotals)
  /\ (<[k := TOther]> zeroTotals) !! k = Some TOther
  /\ (forall s, In s SUBJECTS ->
                (<[k := TOther]> zeroTotals) !! s = Some (TNum (ofZ 0)))
  /\ (forall other,
        inList other SUBJECTS = false ->
        inList other objectPrototypeKeys = false ->
        calcSubjectTotals [newRecord date (VStr other) d] = Ok zeroTotals).
Proof.
  intros Hk Hproto.
  pose proof (inherited_not_subject k Hk) as Hsub.
  pose proof (zeroTotals_other k Hsub) as Hnone.
  split; [exact Hsub|]. split; [exact Hnone|]. split; [|split; [|split]].
  - unfold calcSubjectTotals, newRecord. cbn [foldM]. unfold addToTotals, durationOf.
    cbn [Get lookupProp String.eqb Ascii.eqb Bool.eqb mbind result_bind ToString
         ToNumber].
    unfold readTotal. rewrite Hnone, Hk. cbn [mbind result_bind plusNumber].
    unfold writeTotal.
    replace (String.eqb k "__proto__") with false
      by (symmetry; apply String.eqb_neq; exact Hproto).
    reflexivity.
  - apply lookup_insert_eq.
  - intros s Hin. rewrite lookup_insert_ne.
    + exact (zeroTotals_subject s Hin).
    + intros ->. apply inList_false in Hsub. exact (Hsub Hin).
  - intros other Hother Hplain.
    unfold calcSubjectTotals, newRecord. cbn [foldM]. unfold addToTotals.
    cbn [Get lookupProp String.eqb Ascii.eqb Bool.eqb mbind result_bind ToString].
    unfold readTotal. rewrite (zeroTotals_other other Hother), Hplain. reflexivity.
Qed.

(** C9.  The remainder is never below 0, whatever the two numbers are; for
    finite numbers it is the larger of 0 and [target - total]; and
    [remaining 300 350 = 0], [remaining 300 100 = 200]. *)
Theorem remaining_is_clamped_difference (target total : number) :
  Num.lt (remaining target total) (ofZ 0) = false
  /\ (forall t u : Q, remaining (Fin t) (Fin u) = Fin (Qmax 0 (t - u)))
  /\ (forall t u : Z, remaining (ofZ t) (ofZ u) = ofZ (Z.max 0 (t - u)))
  /\ remaining (ofZ 300) (ofZ 350) = ofZ 0
  /\ remaining (ofZ 300) (ofZ 100) = ofZ 200.
Proof.
  split; [|split; [|split; [|split; reflexivity]]].
  - unfold remaining, Math_max.
    destruct (Num.sub target total) as [| | |d]; try reflexivity.
    unfold Num.lt, ofZ. change (inject_Z 0) with 0%Q.
    destruct (0 ?= d)%Q eqn:C; try reflexivity.
    rewrite <- Qcompare_antisym, C. reflexivity.
  - intros t u. unfold remaining, Math_max, Num.sub, Num.neg, Num.add, Num.lt, ofZ.
    change (inject_Z 0) with 0%Q. unfold Qmax, GenericMinMax.gmax, Qminus.
    destruct (0 ?= t + - u)%Q; reflexivity.
  - intros t u. unfold remaining, Num.sub, Num.neg, Num.add.
    rewrite <- Math_max_ofZ. f_equal. unfold ofZ. f_equal.
    unfold Qplus, Qopp, inject_Z. cbn [Qnum Qden Pos.mul]. f_equal. lia.
Qed.

End TotalsClaims.

(** An instance: thirty minutes of the subject [constructor], next to
    thirty minutes of the subject [unknown]. *)
Lemma calcSubjectTotals_keeps_inherited_name_witness :
  @calcSubjectTotals exampleHost [constructorRecord]
  = Ok (<["constructor" := TOther]> zeroTotals)
  /\ (<["constructor" := TOther]> zeroTotals) !! "constructor" = Some TOther
  /\ zeroTotals !! "constructor" = None
  /\ @calcSubjectTotals exampleHost
       [newRecord "2024-03-10" (VStr "unknown") (ofZ 30)]
     = Ok zeroTotals.
Proof.
  destruct (@calcSubjectTotals_keeps_inherited_name exampleHost "2024-03-10"
              "constructor" (ofZ 30) eq_refl ltac:(discriminate))
    as (_ & Hnone & Hcalc & Hown & _ & Hignored).
  split; [exact Hcalc|]. split; [exact Hown|]. split; [exact Hnone|].
  exact (Hignored "unknown" eq_refl eq_refl).
Defined.

(** * Further properties *)

Ltac fields :=
  unfold withStorage, withSession, withGoalMessage, withRecordStatus,
    withButtons, withActiveSubject, withProgress, withTargetInput;
  cbn [localStorage currentSession targetInput goalMessage recordStatus
       startBtnDisabled endBtnDisabled activeSubject weeklyTotalText
       remainingText subjectChart subject startAt].

(** ** More on the store *)

Lemma jsonOf_finite_record (r : Rec.t) :
  Number_isFinite (Rec.duration r) = true -> jsonItem (Rec.toValue r) = Rec.toValue r.
Proof.
  intros Hfin. unfold jsonItem, Rec.toValue, newRecord. cbn [jsonOf].
  rewrite Hfin. reflexivity.
Qed.

Lemma jsonItem_map_items items :
  map (fun x => match x with VUndef => VNull | _ => jsonOf x end) items
  = map jsonItem items.
Proof. reflexivity. Qed.

Section StoreExtras.
Context `{Host}.

(** Whatever is stored that is not the JSON text of an object (nothing,
    the empty string, a text that is not JSON, [null], a boolean, a number,
    a string or an array) is read as the default snapshot. *)
Theorem loadData_defaults_without_object w :
  (loadData (withStorage (delete STORAGE_KEY (localStorage w)) w)).1 = Ok defaultData
  /\ (loadData (stored EmptyText w)).1 = Ok defaultData
  /\ (loadData (stored NotJSON w)).1 = Ok defaultData
  /\ (loadData (stored (JSONText VNull) w)).1 = Ok defaultData
  /\ (forall b, (loadData (stored (JSONText (VBool b)) w)).1 = Ok defaultData)
  /\ (forall n, (loadData (stored (JSONText (VNum n)) w)).1 = Ok defaultData)
  /\ (forall s, (loadData (stored (JSONText (VStr s)) w)).1 = Ok defaultData)
  /\ (forall items,
        (loadData (stored (JSONText (VArr items)) w)).1 = Ok defaultData).
Proof.
  repeat split; intros; rewrite loadData_eq; try rewrite stored_lookup;
    try reflexivity.
  fields. rewrite lookup_delete_eq. reflexivity.
Qed.

(** The snapshot read back from a saved one: every record as JSON writes
    it back, the mode [weekly], and the target when it is finite and above
    0, else 300. *)
Lemma decode_saved (d : Snapshot) :
  decode (Some (JSON_stringify (snapshotValue d)))
  = {| records := map jsonItem (records d);
       goal := {| mode := "weekly";
                  targetMinutes := savedTarget (targetMinutes (goal d)) |} |}.
Proof.
  unfold decode, JSON_stringify, snapshotValue. cbn [jsonOf].
  rewrite readSnapshot_object.
  cbn [storedTarget lookupProp String.eqb Ascii.eqb Bool.eqb recordsOr].
  unfold savedTarget.
  destruct (targetMinutes (goal d)) as [| | |q]; reflexivity.
Qed.

(** Save, then load: the load returns the saved snapshot as JSON keeps
    it.  A target that is not finite is written as [null] and comes back
    as 300, like a target that is not above 0. *)
Theorem saveData_then_loadData (d : Snapshot) w :
  (saveData d w).1 = Ok tt
  /\ (loadData (saveData d w).2).1
     = Ok {| records := map jsonItem (records d);
             goal := {| mode := "weekly";
                        targetMinutes := savedTarget (targetMinutes (goal d)) |} |}.
Proof.
  split; [reflexivity|].
  rewrite loadData_eq. unfold saveData. unfoldM. cbn [fst snd]. fields.
  rewrite lookup_insert_eq, decode_saved. reflexivity.
Qed.

(** A snapshot of study records with finite durations and a finite target
    above 0 is read back exactly as it was saved. *)
Theorem saveData_round_trip (rs : list Rec.t) (target : number) w :
  forallb (fun r => Number_isFinite (Rec.duration r)) rs = true ->
  Number_isFinite target = true -> Num.gt target (ofZ 0) = true ->
  let d := {| records := map Rec.toValue rs;
              goal := {| mode := "weekly"; targetMinutes := target |} |} in
  (loadData (saveData d w).2).1 = Ok d.
Proof.
  intros Hrs Hfin Hpos. cbv zeta.
  destruct (saveData_then_loadData
              {| records := map Rec.toValue rs;
                 goal := {| mode := "weekly"; targetMinutes := target |} |} w)
    as (_ & Hload).
  rewrite Hload. cbn [records goal targetMinutes]. do 2 f_equal.
  - rewrite map_map. apply map_ext_in. intros r Hin.
    apply jsonOf_finite_record.
    rewrite forallb_forall in Hrs. exact (Hrs r Hin).
  - unfold savedTarget, targetOr. rewrite Hfin, Hpos. reflexivity.
Qed.

End StoreExtras.

(** An instance: the three records of the example and the target 300. *)
Lemma saveData_round_trip_witness :
  let d := {| records := map Rec.toValue specExampleRecords;
              goal := {| mode := "weekly"; targetMinutes := ofZ 300 |} |} in
  (@loadData exampleHost (saveData d emptyPage).2).1 = Ok d.
Proof.
  apply (@saveData_round_trip exampleHost specExampleRecords (ofZ 300) emptyPage);
    reflexivity.
Defined.

(** Induction on values, with the elements of an array and the properties
    of an object as sub-values. *)
Section ValueInduction.
Variable P : value -> Prop.
Hypothesis onUndef : P VUndef.
Hypothesis onNull : P VNull.
Hypothesis onBool : forall b, P (VBool b).
Hypothesis onNum : forall n, P (VNum n).
Hypothesis onStr : forall s, P (VStr s).
Hypothesis onArr : forall items, Forall P items -> P (VArr items).
Hypothesis onObj :
  forall props, Forall (fun kv => P (snd kv)) props -> P (VObj props).

Fixpoint value_induction (v : value) : P v :=
  match v with
  | VUndef => onUndef
  | VNull => onNull
  | VBool b => onBool b
  | VNum n => onNum n
  | VStr s => onStr s
  | VArr items =>
      onArr items
        ((fix all (l : list value) : Forall P l :=
            match l with
            | [] => List.Forall_nil P
            | x :: rest => @List.Forall_cons _ P x rest (value_induction x) (all rest)
            end) items)
  | VObj props =>
      onObj props
        ((fix all (l : list (string * value)) : Forall (fun kv => P (snd kv)) l :=
            match l with
            | [] => List.Forall_nil _
            | kv :: rest =>
                @List.Forall_cons _ (fun kv => P (snd kv)) kv rest
                             (value_induction (snd kv)) (all rest)
            end) props)
  end.

End ValueInduction.

Lemma jsonOf_not_undefined v : v <> VUndef -> jsonOf v <> VUndef.
Proof.
  destruct v as [| |b|n|s|items|props]; cbn [jsonOf]; try congruence.
  destruct (Number_isFinite n); congruence.
Qed.

Lemma jsonItem_of_value v : v <> VUndef -> jsonItem v = jsonOf v.
Proof. destruct v; try reflexivity. congruence. Qed.

(** Writing a value as JSON and reading it back changes nothing the second
    time. *)
Lemma jsonOf_idempotent v : jsonOf (jsonOf v) = jsonOf v.
Proof.
  induction v as [| |b|n|s|items IH|props IH] using value_induction;
    try reflexivity.
  - cbn [jsonOf]. destruct (Number_isFinite n) eqn:E; [|reflexivity].
    cbn [jsonOf]. rewrite E. reflexivity.
  - cbn [jsonOf]. f_equal. rewrite map_map.
    induction IH as [|x items Hx _ IHitems]; [reflexivity|].
    cbn [map]. f_equal; [|exact IHitems].
    destruct x as [| |b|n|s|xs|ps]; try reflexivity; try exact Hx.
    cbn [jsonOf] in *. destruct (Number_isFinite n) eqn:E; [|reflexivity].
    cbn [jsonOf]. rewrite E. reflexivity.
  - cbn [jsonOf]. f_equal.
    induction IH as [|[k x] props Hx _ IHprops]; [reflexivity|].
    cbn [snd] in Hx.
    destruct x as [| |b|n|s|xs|ps]; try (cbn; f_equal; exact IHprops).
    + exact IHprops.
    + cbn. destruct (Number_isFinite n) eqn:E; cbn; rewrite ?E;
        (f_equal; exact IHprops).
    + cbn [jsonOf] in Hx. cbn [jsonOf]. f_equal; [f_equal; exact Hx | exact IHprops].
    + cbn [jsonOf] in Hx. cbn [jsonOf]. f_equal; [f_equal; exact Hx | exact IHprops].
Qed.

Lemma jsonItem_idempotent v : jsonItem (jsonItem v) = jsonItem v.
Proof.
  destruct v as [| |b|n|s|items|props]; try reflexivity.
  - unfold jsonItem. cbn [jsonOf]. destruct (Number_isFinite n) eqn:E; [|reflexivity].
    cbn [jsonOf]. rewrite E. reflexivity.
  - exact (jsonOf_idempotent (VArr items)).
  - exact (jsonOf_idempotent (VObj props)).
Qed.

Lemma savedTarget_idempotent n : savedTarget (savedTarget n) = savedTarget n.
Proof.
  unfold savedTarget, targetOr.
  destruct n as [| | |q]; try reflexivity.
  cbn [Number_isFinite]. destruct (Num.gt (Fin q) (ofZ 0)) eqn:E.
  - cbn [Number_isFinite]. rewrite E. reflexivity.
  - reflexivity.
Qed.

Section StableStore.
Context `{Host}.

(** What a load returns after a save is stable: saved again and loaded
    again, on any page, it comes back unchanged, whatever the first
    snapshot was. *)
Theorem saved_snapshot_is_stable (d : Snapshot) w :
  exists once,
    (loadData (saveData d w).2).1 = Ok once
    /\ forall w', (loadData (saveData once w').2).1 = Ok once.
Proof.
  destruct (saveData_then_loadData d w) as (_ & Hload).
  eexists. split; [exact Hload|].
  intros w'.
  match goal with |- (loadData (saveData ?once _).2).1 = _ =>
    destruct (saveData_then_loadData once w') as (_ & Hagain)
  end.
  rewrite Hagain. cbn [records goal targetMinutes].
  rewrite savedTarget_idempotent, map_map.
  do 2 f_equal. apply map_ext. intros x. apply jsonItem_idempotent.
Qed.

End StableStore.

(** ** Start-up *)

Section InitFacts.
Context `{Host}.
Variable sanitize : string -> string.

Lemma decode_default :
  decode (Some (JSON_stringify (snapshotValue defaultData))) = defaultData.
Proof. rewrite decode_saved. reflexivity. Qed.

(** [init] writes to the storage only when nothing, or the empty string,
    is stored, and then it writes the default snapshot; a stored text, even
    one that is not JSON, is left as it is.  Either way the snapshot a
    load returns is the same after [init] as before, the goal input shows
    its target, and the session is untouched. *)
Theorem init_materialises_default later w :
  let content := localStorage w !! STORAGE_KEY in
  let w' := (init sanitize later w).2 in
  localStorage w'
  = (if nothingStored content
     then <[STORAGE_KEY := JSON_stringify (snapshotValue defaultData)]> (localStorage w)
     else localStorage w)
  /\ decode (localStorage w' !! STORAGE_KEY) = decode content
  /\ targetInput w' = sanitize (NumberToString (targetMinutes (goal (decode content))))
  /\ currentSession w' = currentSession w.
Proof.
  cbv zeta. unfold init, initGoalView, structuredClone. unfoldM.
  destruct (nothingStored (localStorage w !! STORAGE_KEY)) eqn:En.
  - unfold saveData. unfoldM. rewrite loadData_eq.
    match goal with |- context [updateProgressView later ?w1] =>
      destruct (updateProgressView_frame later w1)
        as (Hs & Hc & _ & _ & _ & _ & Hi & _)
    end.
    rewrite Hs, Hc, Hi. fields. rewrite lookup_insert_eq, decode_default.
    assert (Hd : decode (localStorage w !! STORAGE_KEY) = defaultData).
    { destruct (localStorage w !! STORAGE_KEY) as [[| |v]|];
        try discriminate En; reflexivity. }
    rewrite Hd. repeat split; reflexivity.
  - rewrite loadData_eq.
    match goal with |- context [updateProgressView later ?w1] =>
      destruct (updateProgressView_frame later w1)
        as (Hs & Hc & _ & _ & _ & _ & Hi & _)
    end.
    rewrite Hs, Hc, Hi. fields. repeat split; reflexivity.
Qed.

End InitFacts.

(** ** More on the handlers *)

Section HandlerInvariants.
Context `{Host}.

Lemma saveGoalClick_frame later w :
  currentSession (saveGoalClick later w).2 = currentSession w
  /\ startBtnDisabled (saveGoalClick later w).2 = startBtnDisabled w
  /\ endBtnDisabled (saveGoalClick later w).2 = endBtnDisabled w.
Proof.
  unfold saveGoalClick. unfoldM.
  destruct (negb _ || _).
  - fields. repeat split; reflexivity.
  - rewrite loadData_eq. unfold saveData. unfoldM.
    match goal with |- context [updateProgressView later ?w1] =>
      destruct (updateProgressView_frame later w1)
        as (_ & Hc & _ & _ & Hb1 & Hb2 & _)
    end.
    rewrite Hc, Hb1, Hb2. fields. repeat split; reflexivity.
Qed.

(** What a stop does to the session and the controls, in every case. *)
Lemma endClick_session now later w :
  let rejected := negb (bool_decide (is_Some (startAt (currentSession w))))
                  || noSubject (subject (currentSession w)) in
  let w' := (endClick now later w).2 in
  currentSession w'
  = (if rejected then currentSession w
     else {| subject := subject (currentSession w); startAt := None |})
  /\ startBtnDisabled w' = (if rejected then startBtnDisabled w else false)
  /\ endBtnDisabled w' = (if rejected then endBtnDisabled w else true).
Proof.
  cbv zeta. unfold endClick. unfoldM.
  destruct (negb _ || _) eqn:Eg.
  - fields. repeat split; reflexivity.
  - destruct (startAt (currentSession w)) as [started|] eqn:Es.
    2:{ rewrite bool_decide_eq_false_2 in Eg by (intros [x Hx]; discriminate Hx).
        discriminate Eg. }
    cbn [Date_getTime]. rewrite loadData_eq. unfold saveData. unfoldM.
    match goal with |- context [updateProgressView later ?w1] =>
      destruct (updateProgressView_frame later w1)
        as (_ & Hc & _ & _ & Hb1 & Hb2 & _)
    end.
    rewrite Hc, Hb1, Hb2. fields. repeat split; reflexivity.
Qed.

(** Every handler keeps the controls in step with the session: the start
    control is disabled, and the stop control enabled, exactly while a
    start time is recorded.  This holds also when the refresh of the
    progress view at the end of a handler throws. *)
Theorem handlers_keep_controls w :
  controlsMatch w ->
  (forall s, controlsMatch (selectSubject s w).2)
  /\ (forall now, controlsMatch (startClick now w).2)
  /\ (forall now later, controlsMatch (endClick now later w).2)
  /\ (forall later, controlsMatch (saveGoalClick later w).2).
Proof.
  intros [Hstart Hend]. unfold controlsMatch. repeat split.
  - unfold selectSubject. unfoldM. fields. exact Hstart.
  - unfold selectSubject. unfoldM. fields. exact Hend.
  - unfold startClick. unfoldM. destruct (noSubject _); fields;
      [exact Hstart | reflexivity].
  - unfold startClick. unfoldM. destruct (noSubject _); fields;
      [exact Hend | reflexivity].
  - destruct (endClick_session now later w) as (Hc & Hb1 & _). cbv zeta in *.
    rewrite Hc, Hb1. destruct (negb _ || _); [exact Hstart | reflexivity].
  - destruct (endClick_session now later w) as (Hc & _ & Hb2). cbv zeta in *.
    rewrite Hc, Hb2. destruct (negb _ || _); [exact Hend | reflexivity].
  - destruct (saveGoalClick_frame later w) as (Hc & Hb1 & _).
    rewrite Hc, Hb1. exact Hstart.
  - destruct (saveGoalClick_frame later w) as (Hc & _ & Hb2).
    rewrite Hc, Hb2. exact Hend.
Qed.

(** After a successful stop a start needs no new selection: it begins a
    session for the subject of the one just stopped. *)
Theorem start_again_after_stop now later again w subj started :
  currentSession w = {| subject := Some subj; startAt := Some started |} ->
  subj <> "" ->
  let w' := (startClick again (endClick now later w).2).2 in
  currentSession w' = {| subject := Some subj; startAt := Some again |}
  /\ startBtnDisabled w' = true /\ endBtnDisabled w' = false.
Proof.
  intros Hsess Hne. cbv zeta.
  destruct (endClick_running now later w subj started Hsess Hne)
    as (_ & Hc & _).
  cbv zeta in Hc.
  unfold startClick. unfoldM. rewrite Hc. cbn [subject].
  rewrite (noSubject_nonempty subj Hne). fields. rewrite ?Hc.
  repeat split; reflexivity.
Qed.


(** The snapshot a load returns after a successful stop: the records that
    were loaded, each as JSON writes it back, followed by the new record;
    the target that was loaded, or 300 when that was Infinity. *)
Theorem load_after_stop now later w subj started :
  currentSession w = {| subject := Some subj; startAt := Some started |} ->
  subj <> "" ->
  let data := decode (localStorage w !! STORAGE_KEY) in
  let record := newRecord (formatDate now) (VStr subj)
                  (ofZ (Z.max 1 (nearestMinute (now - started)))) in
  decode (localStorage (endClick now later w).2 !! STORAGE_KEY)
  = {| records := map jsonItem (records data) ++ [record];
       goal := {| mode := "weekly";
                  targetMinutes := savedTarget (targetMinutes (goal data)) |} |}.
Proof.
  intros Hsess Hne. cbv zeta.
  destruct (endClick_running now later w subj started Hsess Hne) as (Hs & _).
  cbv zeta in Hs. rewrite Hs, lookup_insert_eq, decode_saved.
  cbn [records goal]. rewrite map_app, durationMinutes_nearest. reflexivity.
Qed.

Lemma durationOf_storedRecord date subj minutes :
  durationOf (storedRecord date subj minutes) = Ok (ofZ minutes).
Proof.
  unfold durationOf, storedRecord.
  cbn [Get lookupProp String.eqb Ascii.eqb Bool.eqb mbind result_bind ToNumber].
  rewrite Num_or_ofZ. reflexivity.
Qed.

(** C5.  The record a stop stores carries, in its field [duration],
    [max(1, r)] minutes, where [r] is the whole number of minutes nearest
    to the time between start and stop (half a minute counting up): that
    is what the storage holds after the stop, what the next load returns
    as the last record, and what is read from that record's duration; with
    no time elapsed it is 1. *)
Theorem stop_records_rounded_minutes now later w subj started :
  currentSession w = {| subject := Some subj; startAt := Some started |} ->
  subj <> "" ->
  let r := nearestMinute (now - started) in
  let data := decode (localStorage w !! STORAGE_KEY) in
  let record := storedRecord (formatDate now) subj (Z.max 1 r) in
  let after := decode (localStorage (endClick now later w).2 !! STORAGE_KEY) in
  60000 * r - 30000 <= now - started < 60000 * r + 30000
  /\ localStorage (endClick now later w).2 !! STORAGE_KEY
     = Some (JSON_stringify
               (snapshotValue {| records := records data ++ [record];
                                 goal := goal data |}))
  /\ records after = (map jsonItem (records data) ++ [record])%list
  /\ Get (lastRecord (records after)) "duration" = Ok (VNum (ofZ (Z.max 1 r)))
  /\ durationOf (lastRecord (records after)) = Ok (ofZ (Z.max 1 r))
  /\ (now = started -> durationOf (lastRecord (records after)) = Ok (ofZ 1)).
Proof.
  intros Hsess Hne. cbv zeta.
  destruct (endClick_running now later w subj started Hsess Hne) as (Hs & _).
  cbv zeta in Hs. rewrite Hs, lookup_insert_eq, decode_saved, durationMinutes_nearest.
  cbn [records]. rewrite map_app. cbn [map].
  change (jsonItem (newRecord (formatDate now) (VStr subj)
                      (ofZ (Z.max 1 (nearestMinute (now - started))))))
    with (storedRecord (formatDate now) subj (Z.max 1 (nearestMinute (now - started)))).
  unfold lastRecord. rewrite last_last, durationOf_storedRecord.
  split; [apply nearestMinute_bounds|].
  split; [reflexivity|]. split; [reflexivity|]. split; [reflexivity|].
  split; [reflexivity|].
  intros ->. rewrite Z.sub_diag. reflexivity.
Qed.

End HandlerInvariants.

(** An instance: 数学 started at time 0; a stop two and a half minutes
    later stores 3 minutes, a stop at time 0 stores 1 minute. *)
Lemma stop_records_rounded_minutes_witness :
  records (@decode exampleHost
             (localStorage (@endClick exampleHost 150000 150001 runningMath).2
                !! STORAGE_KEY))
  = [VObj [("date", VStr "1970-01-01"); ("subject", VStr "数学");
           ("duration", VNum (ofZ 3))]]
  /\ @durationOf exampleHost
       (lastRecord
          (records (@decode exampleHost
                      (localStorage (@endClick exampleHost 150000 150001 runningMath).2
                         !! STORAGE_KEY))))
     = Ok (ofZ 3)
  /\ @durationOf exampleHost
       (lastRecord
          (records (@decode exampleHost
                      (localStorage (@endClick exampleHost 0 1 runningMath).2
                         !! STORAGE_KEY))))
     = Ok (ofZ 1).
Proof.
  destruct (@stop_records_rounded_minutes exampleHost 150000 150001 runningMath
              "数学" 0 eq_refl ltac:(discriminate))
    as (_ & _ & Hrecords & _ & Hduration & _).
  destruct (@stop_records_rounded_minutes exampleHost 0 1 runningMath
              "数学" 0 eq_refl ltac:(discriminate))
    as (_ & _ & _ & _ & _ & Hzero).
  split; [exact Hrecords|]. split; [exact Hduration | exact (Hzero eq_refl)].
Defined.

(** An instance: the page on which 数学 runs, where the start, the stop
    and the goal save all succeed, and the same page with a [null] among
    the stored records, where the stop and the goal save do their work and
    then throw in the refresh. *)
Lemma handlers_keep_controls_witness :
  ((@startClick exampleHost 5000 runningMath).1 = Ok tt
   /\ startAt (currentSession (@startClick exampleHost 5000 runningMath).2) = Some 5000
   /\ controlsMatch (@startClick exampleHost 5000 runningMath).2)
  /\ ((@endClick exampleHost 60000 60001 runningMath).1 = Ok tt
      /\ startAt (currentSession (@endClick exampleHost 60000 60001 runningMath).2) = None
      /\ controlsMatch (@endClick exampleHost 60000 60001 runningMath).2)
  /\ ((@saveGoalClick exampleHost 0 runningMath).1 = Ok tt
      /\ controlsMatch (@saveGoalClick exampleHost 0 runningMath).2)
  /\ controlsMatch (selectSubject "英語" runningMath).2
  /\ ((@endClick exampleHost 60000 60001 nullRecordPage).1 = Throw
      /\ startAt (currentSession (@endClick exampleHost 60000 60001 nullRecordPage).2) = None
      /\ controlsMatch (@endClick exampleHost 60000 60001 nullRecordPage).2)
  /\ ((@saveGoalClick exampleHost 0 nullRecordPage).1 = Throw
      /\ controlsMatch (@saveGoalClick exampleHost 0 nullRecordPage).2).
Proof.
  destruct (@handlers_keep_controls exampleHost runningMath
              (conj eq_refl eq_refl)) as (Hselect & Hstart & Hstop & Hgoal).
  destruct (@handlers_keep_controls exampleHost nullRecordPage
              (conj eq_refl eq_refl)) as (_ & _ & Hstop' & Hgoal').
  split; [split; [vm_compute; reflexivity | split; [vm_compute; reflexivity | apply Hstart]]|].
  split; [split; [vm_compute; reflexivity | split; [vm_compute; reflexivity | apply Hstop]]|].
  split; [split; [vm_compute; reflexivity | apply Hgoal]|].
  split; [apply Hselect|].
  split; [split; [vm_compute; reflexivity | split; [vm_compute; reflexivity | apply Hstop']]|].
  split; [vm_compute; reflexivity | apply Hgoal'].
Defined.

(** An instance: 数学 stopped after a minute and started again. *)
Lemma start_again_after_stop_witness :
  let w' := (@startClick exampleHost 90000
               (@endClick exampleHost 60000 60001 runningMath).2).2 in
  currentSession w' = {| subject := Some "数学"; startAt := Some 90000 |}
  /\ startBtnDisabled w' = true /\ endBtnDisabled w' = false.
Proof.
  apply (@start_again_after_stop exampleHost 60000 60001 90000 runningMath "数学" 0).
  - reflexivity.
  - discriminate.
Defined.


(** An instance: the first stop on the first-visit page. *)
Lemma load_after_stop_witness :
  @decode exampleHost
    (localStorage (@endClick exampleHost 60000 60001 runningMath).2 !! STORAGE_KEY)
  = {| records := [newRecord "1970-01-01" (VStr "数学") (ofZ 1)];
       goal := {| mode := "weekly"; targetMinutes := ofZ 300 |} |}.
Proof.
  apply (@load_after_stop exampleHost 60000 60001 runningMath "数学" 0).
  - reflexivity.
  - discriminate.
Defined.

(** ** More on the aggregation *)

Lemma plusNumber_number old n :
  (exists a, old = TNum a) -> exists a, plusNumber old n = TNum a.
Proof. intros [a ->]. eexists. reflexivity. Qed.

Section AggregationExtras.
Context `{Host}.

Lemma filterLast7Days_null now records :
  In VNull records -> filterLast7Days now records = Throw.
Proof.
  unfold filterLast7Days.
  induction records as [|x rest IH]; intros Hin; [destruct Hin|].
  cbn [filterM]. destruct Hin as [-> | Hin]; [reflexivity|].
  destruct (inLast7Days now x) as [b|]; [|reflexivity].
  cbn [mbind result_bind]. rewrite (IH Hin). reflexivity.
Qed.

(** A [null] among the stored records makes every refresh of the progress
    view throw (reading its [date] is a TypeError that nothing catches),
    and the view keeps what it showed. *)
Theorem null_record_breaks_progress later w :
  In VNull (records (decode (localStorage w !! STORAGE_KEY))) ->
  updateProgressView later w = (Throw, w).
Proof.
  intros Hin. unfold updateProgressView. unfoldM. rewrite loadData_eq.
  rewrite (filterLast7Days_null later _ Hin). reflexivity.
Qed.

(** With a [null] among the stored records a stop still appends its record
    to the store and clears the start time, but it ends by throwing and
    the progress view is not refreshed. *)
Theorem stop_with_null_record now later w subj started :
  currentSession w = {| subject := Some subj; startAt := Some started |} ->
  subj <> "" ->
  In VNull (records (decode (localStorage w !! STORAGE_KEY))) ->
  let w' := (endClick now later w).2 in
  (endClick now later w).1 = Throw
  /\ In (newRecord (formatDate now) (VStr subj)
           (ofZ (Z.max 1 (nearestMinute (now - started)))))
        (records (decode (localStorage w' !! STORAGE_KEY)))
  /\ currentSession w' = {| subject := Some subj; startAt := None |}
  /\ weeklyTotalText w' = weeklyTotalText w
  /\ remainingText w' = remainingText w /\ subjectChart w' = subjectChart w.
Proof.
  intros Hsess Hne Hin. cbv zeta.
  unfold endClick. unfoldM. rewrite Hsess. cbn [startAt subject].
  rewrite (noSubject_nonempty subj Hne).
  rewrite bool_decide_eq_true_2 by (eexists; reflexivity).
  cbn [negb orb Date_getTime]. rewrite loadData_eq.
  unfold saveData. unfoldM.
  match goal with |- context [updateProgressView later ?w1] =>
    rewrite (null_record_breaks_progress later w1)
  end.
  - cbn [fst snd]. fields. rewrite lookup_insert_eq, decode_saved.
    cbn [records subject subjectValue]. rewrite map_app, durationMinutes_nearest.
    rewrite Hsess. cbn [subject].
    repeat split; try reflexivity.
    apply in_or_app. right. left. reflexivity.
  - fields. rewrite lookup_insert_eq, decode_saved. cbn [records].
    rewrite map_app. apply in_or_app. left.
    change VNull with (jsonItem VNull). apply in_map. exact Hin.
Qed.

Lemma addToTotals_numbers totals record totals' :
  (forall s, In s SUBJECTS -> exists a, totals !! s = Some (TNum a)) ->
  addToTotals totals record = Ok totals' ->
  forall s, In s SUBJECTS -> exists a, totals' !! s = Some (TNum a).
Proof.
  intros Hnum Hstep s Hin. unfold addToTotals in Hstep.
  destruct (Get record "subject") as [sub|]; [|discriminate Hstep].
  cbn [mbind result_bind] in Hstep.
  destruct (ToString sub) as [key|]; [|discriminate Hstep].
  cbn [mbind result_bind] in Hstep.
  destruct (readTotal totals key) as [old|] eqn:Er.
  2:{ injection Hstep as <-. exact (Hnum s Hin). }
  destruct (durationOf record) as [n|]; [|discriminate Hstep].
  cbn [mbind result_bind] in Hstep. injection Hstep as <-.
  unfold writeTotal. destruct (String.eqb key "__proto__"); [exact (Hnum s Hin)|].
  destruct (String.eqb_spec key s) as [-> | Hne].
  - rewrite lookup_insert_eq.
    destruct (Hnum s Hin) as [a Ha]. unfold readTotal in Er. rewrite Ha in Er.
    injection Er as <-. eexists. reflexivity.
  - rewrite lookup_insert_ne by exact Hne. exact (Hnum s Hin).
Qed.

Lemma foldM_addToTotals_numbers records totals totals' :
  (forall s, In s SUBJECTS -> exists a, totals !! s = Some (TNum a)) ->
  foldM addToTotals totals records = Ok totals' ->
  forall s, In s SUBJECTS -> exists a, totals' !! s = Some (TNum a).
Proof.
  revert totals. induction records as [|r rest IH]; intros totals Hnum Hfold.
  - cbn in Hfold. injection Hfold as <-. exact Hnum.
  - cbn [foldM] in Hfold.
    destruct (addToTotals totals r) as [t1|] eqn:Estep; [|discriminate Hfold].
    cbn [mbind result_bind] in Hfold.
    exact (IH t1 (addToTotals_numbers totals r t1 Hnum Estep) Hfold).
Qed.

(** Whatever the records are, when [calcSubjectTotals] returns, the chart
    gets one value per subject and every one of them is a number: a record
    can add to a bar but never turn it into something else. *)
Theorem chart_values_are_numbers records totals :
  calcSubjectTotals records = Ok totals ->
  length (renderChart totals) = length SUBJECTS
  /\ Forall (fun v => exists a, v = Some (TNum a)) (renderChart totals).
Proof.
  intros Hcalc. split; [unfold renderChart; apply length_map|].
  unfold renderChart. apply List.Forall_forall. intros v Hv.
  apply in_map_iff in Hv. destruct Hv as (s & <- & Hin).
  destruct (foldM_addToTotals_numbers records zeroTotals totals) with (s := s)
    as [a Ha]; try assumption.
  - intros s' Hs'. eexists. exact (zeroTotals_subject s' Hs').
  - exists a. unfold readTotal. rewrite Ha. reflexivity.
Qed.

Lemma weeklyTotalOf_records (rs : list Rec.t) acc :
  foldM (fun sum record => n ← durationOf record; Ok (Num.add sum n))
        acc (map Rec.toValue rs)
  = Ok (fold_left (fun sum r => Num.add sum (Num.or (Rec.duration r) (ofZ 0)))
                  rs acc).
Proof.
  revert acc. induction rs as [|r rs IH]; intros acc; [reflexivity|].
  cbn [map foldM fold_left]. unfold durationOf at 1, Rec.toValue at 1, newRecord.
  cbn [Get lookupProp String.eqb Ascii.eqb Bool.eqb mbind result_bind ToNumber].
  apply IH.
Qed.

End AggregationExtras.

Lemma fold_minutes_total es a :
  fold_left (fun sum r => Num.add sum (Num.or (Rec.duration r) (ofZ 0)))
            (map entryRecord es) (ofZ a)
  = ofZ (a + minutesWhere (fun _ => true) es).
Proof.
  revert a. induction es as [|[[d s] z] es IH]; intros a.
  - cbn. f_equal. lia.
  - cbn [map fold_left entryRecord Rec.duration minutesWhere fold_right fst snd].
    rewrite Num_or_ofZ, Num_add_ofZ, IH. f_equal.
    unfold minutesWhere. lia.
Qed.

Lemma fold_minutes_subject es s a :
  fold_left (fun acc r =>
               if String.eqb (Rec.subject r) s
               then Num.add acc (Num.or (Rec.duration r) (ofZ 0))
               else acc)
            (map entryRecord es) (ofZ a)
  = ofZ (a + minutesWhere (fun k => String.eqb k s) es).
Proof.
  revert a. induction es as [|[[d k] z] es IH]; intros a.
  - cbn. f_equal. lia.
  - cbn [map fold_left entryRecord Rec.duration Rec.subject minutesWhere
         fold_right fst snd].
    destruct (String.eqb k s).
    + rewrite Num_or_ofZ, Num_add_ofZ, IH. f_equal. unfold minutesWhere. lia.
    + rewrite IH. reflexivity.
Qed.

(** Every entry is counted once: under its subject when that is one of
    the five, and else among the others. *)
Lemma minutes_split es :
  minutesWhere (fun _ => true) es
  = minutesWhere (fun k => String.eqb k "国語") es
    + minutesWhere (fun k => String.eqb k "数学") es
    + minutesWhere (fun k => String.eqb k "英語") es
    + minutesWhere (fun k => String.eqb k "理科") es
    + minutesWhere (fun k => String.eqb k "社会") es
    + minutesWhere (fun k => negb (inList k SUBJECTS)) es.
Proof.
  induction es as [|[[d k] z] es IH]; [reflexivity|].
  cbn [minutesWhere fold_right fst snd]. fold (minutesWhere (fun _ => true) es).
  fold (minutesWhere (fun k => String.eqb k "国語") es).
  fold (minutesWhere (fun k => String.eqb k "数学") es).
  fold (minutesWhere (fun k => String.eqb k "英語") es).
  fold (minutesWhere (fun k => String.eqb k "理科") es).
  fold (minutesWhere (fun k => String.eqb k "社会") es).
  fold (minutesWhere (fun k => negb (inList k SUBJECTS)) es).
  rewrite IH. unfold inList, SUBJECTS. cbn [existsb].
  destruct (String.eqb_spec k "国語") as [-> | H1]; [cbn; lia|].
  destruct (String.eqb_spec k "数学") as [-> | H2]; [cbn; lia|].
  destruct (String.eqb_spec k "英語") as [-> | H3]; [cbn; lia|].
  destruct (String.eqb_spec k "理科") as [-> | H4]; [cbn; lia|].
  destruct (String.eqb_spec k "社会") as [-> | H5]; [cbn; lia|].
  cbn. lia.
Qed.

Section TotalAndBars.
Context `{Host}.

(** On records of whole minutes, the weekly total is the sum of the five
    bars of the chart plus the minutes of the records whose subject is
    none of the five: such a record counts toward the total and the
    remainder although no bar shows it. *)
Theorem total_is_bars_plus_unknown (es : list (string * string * Z)) :
  let recs := map Rec.toValue (map entryRecord es) in
  let bar s := minutesWhere (fun k => String.eqb k s) es in
  exists totals,
    calcSubjectTotals recs = Ok totals
    /\ renderChart totals
       = map (fun s => Some (TNum (ofZ (bar s)))) SUBJECTS
    /\ weeklyTotalOf recs
       = Ok (ofZ (bar "国語" + bar "数学" + bar "英語" + bar "理科" + bar "社会"
                  + minutesWhere (fun k => negb (inList k SUBJECTS)) es)).
Proof.
  cbv zeta. unfold calcSubjectTotals.
  destruct (foldM_addToTotals_ok (map entryRecord es) zeroTotals) as (totals & Hfold).
  exists totals. split; [exact Hfold|]. split.
  - unfold renderChart. apply map_ext_in. intros s Hin.
    unfold readTotal.
    rewrite (foldM_addToTotals_bucket (map entryRecord es) zeroTotals totals s
               (ofZ 0) Hin (zeroTotals_subject s Hin) Hfold).
    rewrite fold_minutes_subject. reflexivity.
  - unfold weeklyTotalOf. rewrite weeklyTotalOf_records, fold_minutes_total.
    rewrite minutes_split. reflexivity.
Qed.

End TotalAndBars.

Lemma remaining_ofZ t u : remaining (ofZ t) (ofZ u) = ofZ (Z.max 0 (t - u)).
Proof.
  unfold remaining, Num.sub, Num.neg, Num.add.
  rewrite <- Math_max_ofZ. f_equal. unfold ofZ. f_equal.
  unfold Qplus, Qopp, inject_Z. cbn [Qnum Qden Pos.mul]. f_equal. lia.
Qed.

Section ProgressView.
Context `{Host}.
Variable off : Z.
Hypothesis zone : constantOffset off.

Lemma updateProgressView_entries later w (es : list (string * string * Z)) :
  records (decode (localStorage w !! STORAGE_KEY))
  = map Rec.toValue (map entryRecord es) ->
  let target := targetMinutes (goal (decode (localStorage w !! STORAGE_KEY))) in
  let recent := entriesInWindow later es in
  let total := minutesWhere (fun _ => true) recent in
  updateProgressView later w
  = (Ok tt,
     withProgress (NumberToString (ofZ total))
       (NumberToString (remaining target (ofZ total)))
       (map (fun s => Some (TNum (ofZ (minutesWhere (fun k => String.eqb k s) recent))))
            SUBJECTS)
       w).
Proof.
  intros Hrs. cbv zeta. unfold updateProgressView. unfoldM.
  rewrite loadData_eq, Hrs, (filterLast7Days_entries off zone).
  unfold weeklyTotalOf. rewrite weeklyTotalOf_records, fold_minutes_total.
  set (recent := entriesInWindow later es).
  unfold calcSubjectTotals.
  destruct (foldM_addToTotals_ok (map entryRecord recent) zeroTotals)
    as (totals & Hfold).
  rewrite Hfold, Z.add_0_l. do 2 f_equal.
  unfold renderChart. apply map_ext_in. intros s Hin.
  unfold readTotal.
  rewrite (foldM_addToTotals_bucket (map entryRecord recent) zeroTotals totals s
             (ofZ 0) Hin (zeroTotals_subject s Hin) Hfold).
  rewrite fold_minutes_subject, Z.add_0_l. reflexivity.
Qed.

(** In a zone without transitions, on a store of study records of whole
    minutes with a whole number as the target, the refresh of the progress
    view returns normally and shows: the minutes of the records whose date
    is in the window, what is left of the target after them, never below
    0, and per subject the minutes of its records in the window. *)
Theorem updateProgressView_shows later w (es : list (string * string * Z))
    (target : Z) :
  records (decode (localStorage w !! STORAGE_KEY))
  = map Rec.toValue (map entryRecord es) ->
  targetMinutes (goal (decode (localStorage w !! STORAGE_KEY))) = ofZ target ->
  let recent := entriesInWindow later es in
  let total := minutesWhere (fun _ => true) recent in
  updateProgressView later w
  = (Ok tt,
     withProgress (NumberToString (ofZ total))
       (NumberToString (ofZ (Z.max 0 (target - total))))
       (map (fun s => Some (TNum (ofZ (minutesWhere (fun k => String.eqb k s) recent))))
            SUBJECTS)
       w).
Proof.
  intros Hrs Htarget. cbv zeta.
  rewrite (updateProgressView_entries later w es Hrs). cbv zeta.
  rewrite Htarget, remaining_ofZ. reflexivity.
Qed.

End ProgressView.

Lemma examplePage_records :
  records (@decode exampleHost (localStorage examplePage !! STORAGE_KEY))
  = map Rec.toValue (map entryRecord specExampleEntries).
Proof. vm_compute. reflexivity. Qed.

Lemma examplePage_target :
  targetMinutes (goal (@decode exampleHost (localStorage examplePage !! STORAGE_KEY)))
  = ofZ 300.
Proof. vm_compute. reflexivity. Qed.

(** An instance: in the zone of the example, the three records of the
    example seen on their day, and seen a week later: 149 minutes in all,
    151 left of 300 and 50 in the bar of 数学; then nothing at all. *)
Lemma updateProgressView_shows_witness :
  @updateProgressView exampleHost (@on_2024_03_10 exampleHost 0) examplePage
  = (Ok tt,
     withProgress "149" "151"
       [Some (TNum (ofZ 0)); Some (TNum (ofZ 50)); Some (TNum (ofZ 0));
        Some (TNum (ofZ 0)); Some (TNum (ofZ 0))]
       examplePage)
  /\ @updateProgressView exampleHost
       (@on_2024_03_10 exampleHost 0 + 7 * msPerDay) examplePage
     = (Ok tt,
        withProgress "0" "300"
          [Some (TNum (ofZ 0)); Some (TNum (ofZ 0)); Some (TNum (ofZ 0));
           Some (TNum (ofZ 0)); Some (TNum (ofZ 0))]
          examplePage).
Proof.
  split.
  - rewrite (@updateProgressView_shows exampleHost exampleOffset exampleHost_zone
               (@on_2024_03_10 exampleHost 0) examplePage specExampleEntries 300
               examplePage_records examplePage_target).
    vm_compute. reflexivity.
  - rewrite (@updateProgressView_shows exampleHost exampleOffset exampleHost_zone
               (@on_2024_03_10 exampleHost 0 + 7 * msPerDay) examplePage
               specExampleEntries 300 examplePage_records examplePage_target).
    vm_compute. reflexivity.
Defined.

(** An instance: [{"records":[null]}]. *)
Lemma null_record_breaks_progress_witness :
  @updateProgressView exampleHost 0 nullRecordPage = (Throw, nullRecordPage).
Proof.
  apply (@null_record_breaks_progress exampleHost 0 nullRecordPage).
  left. reflexivity.
Defined.

(** An instance: a stop on the page of [{"records":[null]}]. *)
Lemma stop_with_null_record_witness :
  let w' := (@endClick exampleHost 60000 60001 nullRecordPage).2 in
  (@endClick exampleHost 60000 60001 nullRecordPage).1 = Throw
  /\ In (newRecord "1970-01-01" (VStr "数学") (ofZ 1))
        (records (@decode exampleHost (localStorage w' !! STORAGE_KEY)))
  /\ currentSession w' = {| subject := Some "数学"; startAt := None |}
  /\ weeklyTotalText w' = "0"
  /\ remainingText w' = "300"
  /\ subjectChart w' = subjectChart emptyPage.
Proof.
  apply (@stop_with_null_record exampleHost 60000 60001 nullRecordPage "数学" 0).
  - reflexivity.
  - discriminate.
  - left. reflexivity.
Defined.

Lemma example_totals :
  @calcSubjectTotals exampleHost (map Rec.toValue specExampleRecords)
  = Ok (<["数学" := TNum (ofZ 50)]> zeroTotals).
Proof. vm_compute. reflexivity. Qed.

(** An instance: the three records of the example. *)
Lemma chart_values_are_numbers_witness :
  length (renderChart (<["数学" := TNum (ofZ 50)]> zeroTotals)) = length SUBJECTS
  /\ Forall (fun v => exists a, v = Some (TNum a))
            (renderChart (<["数学" := TNum (ofZ 50)]> zeroTotals)).
Proof.
  exact (@chart_values_are_numbers exampleHost
           (map Rec.toValue specExampleRecords)
           (<["数学" := TNum (ofZ 50)]> zeroTotals) example_totals).
Defined.

(** ** The date of a record *)

Lemma yearOfEra_exact doe :
  0 <= doe < 146097 ->
  let yoe := yearOfEra doe in
  doe - yearStart yoe
  < 365 + ((yoe + 1) / 4 - yoe / 4) - ((yoe + 1) / 100 - yoe / 100)
    + ((yoe + 1) / 400 - yoe / 400).
Proof.
  intros Hr. cbv zeta. unfold yearOfEra, yearStart. Z.div_mod_to_equations. lia.
Qed.

Lemma isLeapYear_shift yoe era :
  0 <= yoe < 400 ->
  isLeapYear (yoe + era * 400 + 1)
  = ((yoe + 1) mod 4 =? 0)
    && (negb ((yoe + 1) mod 100 =? 0) || ((yoe + 1) mod 400 =? 0)).
Proof.
  intros Hy. unfold isLeapYear.
  replace (yoe + era * 400 + 1) with (yoe + 1 + era * 400) by lia.
  replace ((yoe + 1 + era * 400) mod 4) with ((yoe + 1) mod 4)
    by (replace (yoe + 1 + era * 400) with (yoe + 1 + (era * 100) * 4) by lia;
        symmetry; apply Z.mod_add; lia).
  replace ((yoe + 1 + era * 400) mod 100) with ((yoe + 1) mod 100)
    by (replace (yoe + 1 + era * 400) with (yoe + 1 + (era * 4) * 100) by lia;
        symmetry; apply Z.mod_add; lia).
  replace ((yoe + 1 + era * 400) mod 400) with ((yoe + 1) mod 400)
    by (symmetry; apply Z.mod_add; lia).
  reflexivity.
Qed.

(** The civil date of a day number is a date of the calendar. *)
Lemma civilFromDays_valid z :
  let '(y, m, d) := civilFromDays z in
  1 <= m <= 12 /\ 1 <= d <= daysInMonth y m.
Proof.
  unfold civilFromDays.
  set (z' := z + 719468). set (era := z' / 146097).
  set (doe := z' - era * 146097).
  assert (Hr : 0 <= doe < 146097).
  { unfold doe, era. pose proof (Z.mod_pos_bound z' 146097 ltac:(lia)) as Hm.
    rewrite Z.mod_eq in Hm by lia. lia. }
  pose proof (yearOfEra_range doe Hr) as Hy.
  pose proof (yearOfEra_day doe Hr) as Hd.
  pose proof (yearOfEra_exact doe Hr) as Hx. cbv zeta in Hx.
  set (yoe := yearOfEra doe) in *.
  set (doy := doe - yearStart yoe) in *.
  set (mp := (5 * doy + 2) / 153).
  assert (Hmp : 0 <= mp <= 11) by (unfold mp; Z.div_mod_to_equations; lia).
  assert (Hdef : 153 * mp <= 5 * doy + 2 < 153 * mp + 153)
    by (unfold mp; Z.div_mod_to_equations; lia).
  set (d := doy - (153 * mp + 2) / 5 + 1).
  assert (Hcases : mp = 0 \/ mp = 1 \/ mp = 2 \/ mp = 3 \/ mp = 4 \/ mp = 5
                   \/ mp = 6 \/ mp = 7 \/ mp = 8 \/ mp = 9 \/ mp = 10 \/ mp = 11)
    by lia.
  clearbody mp.
  unfold daysInMonth.
  repeat (destruct Hcases as [-> | Hcases]); try subst mp;
    match goal with
    | |- context [if ?k <? 10 then ?k + 3 else ?k - 9] =>
        let v := eval compute in (if k <? 10 then k + 3 else k - 9) in
        change (if k <? 10 then k + 3 else k - 9) with v
    end;
    cbn [Z.leb Z.eqb Z.compare Pos.compare Pos.compare_cont Pos.eqb orb];
    try (unfold d; split; [lia | Z.div_mod_to_equations; lia]).
  (* February *)
  rewrite (isLeapYear_shift yoe era Hy).
  unfold d. split; [lia|].
  destruct (Z.eqb_spec ((yoe + 1) mod 4) 0);
    destruct (Z.eqb_spec ((yoe + 1) mod 100) 0);
    destruct (Z.eqb_spec ((yoe + 1) mod 400) 0);
    cbn [negb orb andb]; Z.div_mod_to_equations; lia.
Qed.

(** The character of a decimal digit. *)
Lemma digitOf_digit k :
  0 <= k <= 9 -> digitOf (ascii_of_nat (Z.to_nat (48 + k))) = Some k.
Proof.
  intros Hk.
  assert (Hcases : k = 0 \/ k = 1 \/ k = 2 \/ k = 3 \/ k = 4 \/ k = 5 \/ k = 6
                   \/ k = 7 \/ k = 8 \/ k = 9) by lia.
  repeat (destruct Hcases as [-> | Hcases]); try subst k; reflexivity.
Qed.

Lemma digitsOfPos_step fuel n acc :
  digitsOfPos (S fuel) n acc
  = (if n <? 10 then String (ascii_of_nat (Z.to_nat (48 + n mod 10))) acc
     else digitsOfPos fuel (n / 10)
            (String (ascii_of_nat (Z.to_nat (48 + n mod 10))) acc)).
Proof. reflexivity. Qed.

(** The decimal numeral of a number of one or two digits, padded to two
    characters. *)
Lemma padStart2_numeral n :
  0 <= n <= 99 ->
  padStart2 (integerNumeral n)
  = String (ascii_of_nat (Z.to_nat (48 + n / 10)))
      (String (ascii_of_nat (Z.to_nat (48 + n mod 10))) "").
Proof.
  intros Hn. unfold integerNumeral.
  replace (n <? 0) with false by (symmetry; apply Z.ltb_ge; lia).
  change 64%nat with (S (S 62)). generalize 62%nat. intros fuel.
  rewrite digitsOfPos_step.
  destruct (Z.ltb_spec n 10) as [Hlt | Hge].
  - replace (n / 10) with 0 by (symmetry; apply Z.div_small; lia).
    reflexivity.
  - rewrite digitsOfPos_step.
    replace (n / 10 <? 10) with true
      by (symmetry; apply Z.ltb_lt; Z.div_mod_to_equations; lia).
    replace ((n / 10) mod 10) with (n / 10)
      by (symmetry; apply Z.mod_small; Z.div_mod_to_equations; lia).
    reflexivity.
Qed.

(** The decimal numeral of a number of four digits. *)
Lemma numeral_four_digits n :
  1000 <= n <= 9999 ->
  integerNumeral n
  = String (ascii_of_nat (Z.to_nat (48 + n / 1000)))
      (String (ascii_of_nat (Z.to_nat (48 + (n / 100) mod 10)))
         (String (ascii_of_nat (Z.to_nat (48 + (n / 10) mod 10)))
            (String (ascii_of_nat (Z.to_nat (48 + n mod 10))) ""))).
Proof.
  intros Hn. unfold integerNumeral.
  replace (n <? 0) with false by (symmetry; apply Z.ltb_ge; lia).
  change 64%nat with (S (S (S (S 60)))). generalize 60%nat. intros fuel.
  do 4 rewrite digitsOfPos_step.
  replace (n <? 10) with false by (symmetry; apply Z.ltb_ge; lia).
  replace (n / 10 <? 10) with false
    by (symmetry; apply Z.ltb_ge; Z.div_mod_to_equations; lia).
  replace (n / 10 / 10 <? 10) with false
    by (symmetry; apply Z.ltb_ge; Z.div_mod_to_equations; lia).
  replace (n / 10 / 10 / 10 <? 10) with true
    by (symmetry; apply Z.ltb_lt; Z.div_mod_to_equations; lia).
  replace ((n / 10 / 10 / 10) mod 10) with (n / 1000)
    by (Z.div_mod_to_equations; lia).
  replace ((n / 10 / 10) mod 10) with ((n / 100) mod 10)
    by (Z.div_mod_to_equations; lia).
  reflexivity.
Qed.

Lemma daysInMonth_bound y m : 28 <= daysInMonth y m <= 31.
Proof.
  unfold daysInMonth.
  destruct (m =? 2); [destruct (isLeapYear y); lia|].
  destruct ((m =? 4) || (m =? 6) || (m =? 9) || (m =? 11)); lia.
Qed.

Lemma digits2 a b :
  0 <= a <= 9 -> 0 <= b <= 9 ->
  digitsFrom 0 [ascii_of_nat (Z.to_nat (48 + a)); ascii_of_nat (Z.to_nat (48 + b))]
  = Some (a * 10 + b).
Proof.
  intros Ha Hb. cbn [digitsFrom]. rewrite (digitOf_digit a Ha).
  cbn [mbind option_bind]. rewrite (digitOf_digit b Hb). cbn [mbind option_bind].
  f_equal; lia.
Qed.

Lemma digits4 a b c d :
  0 <= a <= 9 -> 0 <= b <= 9 -> 0 <= c <= 9 -> 0 <= d <= 9 ->
  digitsFrom 0 [ascii_of_nat (Z.to_nat (48 + a)); ascii_of_nat (Z.to_nat (48 + b));
                ascii_of_nat (Z.to_nat (48 + c)); ascii_of_nat (Z.to_nat (48 + d))]
  = Some (((a * 10 + b) * 10 + c) * 10 + d).
Proof.
  intros Ha Hb Hc Hd. cbn [digitsFrom].
  rewrite (digitOf_digit a Ha). cbn [mbind option_bind].
  rewrite (digitOf_digit b Hb). cbn [mbind option_bind].
  rewrite (digitOf_digit c Hc). cbn [mbind option_bind].
  rewrite (digitOf_digit d Hd). cbn [mbind option_bind].
  f_equal; lia.
Qed.

(** A date of the calendar written as [YYYY-MM-DD] and read with the time
    [T00:00:00] appended is the local midnight of that date. *)
Lemma parse_written_date `{Host} y m d :
  1000 <= y <= 9999 -> 1 <= m <= 12 -> 1 <= d <= daysInMonth y m ->
  parseLocalDateTime
    ((integerNumeral y ++ "-" ++ padStart2 (integerNumeral m) ++ "-"
      ++ padStart2 (integerNumeral d)) ++ "T00:00:00")
  = Some (localMidnight (daysFromCivil y m d)).
Proof.
  intros Hy Hm Hd. pose proof (daysInMonth_bound y m) as Hdim.
  rewrite (numeral_four_digits y Hy).
  rewrite (padStart2_numeral m) by lia. rewrite (padStart2_numeral d) by lia.
  unfold parseLocalDateTime.
  cbv [String.append list_ascii_of_string].
  replace (isChar "-" "-" && isChar "-" "-" && isChar "T" "T"
           && isChar ":" ":" && isChar ":" ":") with true by reflexivity.
  rewrite digits4 by (Z.div_mod_to_equations; lia).
  cbn [mbind option_bind].
  rewrite (digits2 (m / 10) (m mod 10)) by (Z.div_mod_to_equations; lia).
  cbn [mbind option_bind].
  rewrite (digits2 (d / 10) (d mod 10)) by (Z.div_mod_to_equations; lia).
  cbn [mbind option_bind].
  replace (digitsFrom 0 ["0"%char; "0"%char]) with (Some 0) by reflexivity.
  cbn [mbind option_bind].
  replace (((y / 1000 * 10 + (y / 100) mod 10) * 10 + (y / 10) mod 10) * 10 + y mod 10)
    with y by (Z.div_mod_to_equations; lia).
  replace (m / 10 * 10 + m mod 10) with m by (Z.div_mod_to_equations; lia).
  replace (d / 10 * 10 + d mod 10) with d by (Z.div_mod_to_equations; lia).
  replace ((1 <=? m) && (m <=? 12) && (1 <=? d) && (d <=? daysInMonth y m)
           && (0 <=? 23) && (0 <=? 59) && (0 <=? 59)) with true.
  - reflexivity.
  - symmetry. repeat (apply andb_true_intro; split); try reflexivity;
      apply Z.leb_le; lia.
Qed.

Lemma exampleHost_numerals z :
  @NumberToString exampleHost (ofZ z) = integerNumeral z.
Proof.
  unfold ofZ. cbn [NumberToString exampleHost]. rewrite Qfloor_Z.
  replace (Qeq_bool (inject_Z z) (inject_Z z)) with true
    by (symmetry; apply Qeq_bool_iff; reflexivity).
  reflexivity.
Qed.

Section RecordDates.
Context `{Host}.
(** The host writes the whole numbers up to 9999 in decimal, as the
    language standard has it. *)
Hypothesis decimal :
  forall z, 0 <= z <= 9999 -> NumberToString (ofZ z) = integerNumeral z.

Lemma formatDate_parse now :
  1000 <= Date_getFullYear now <= 9999 ->
  Date_parse (formatDate now ++ "T00:00:00")
  = Some (localMidnight (Day (LocalTime now))).
Proof.
  intros Hyear. unfold Date_parse, formatDate, Date_getFullYear, Date_getMonth,
    Date_getDate, YearFromTime, MonthFromTime, DateFromTime in *.
  pose proof (civilFromDays_valid (Day (LocalTime now))) as Hvalid.
  pose proof (daysFromCivil_civilFromDays (Day (LocalTime now))) as Hback.
  destruct (civilFromDays (Day (LocalTime now))) as [[y m] d]. cbn [fst snd] in *.
  destruct Hvalid as [Hm Hd]. pose proof (daysInMonth_bound y m) as Hdim.
  replace (m - 1 + 1) with m by lia.
  rewrite !decimal by lia.
  rewrite (parse_written_date y m d Hyear Hm Hd), Hback. reflexivity.
Qed.

(** In any zone, the date [formatDate] writes for an instant is read back,
    with the time [T00:00:00] appended as [filterLast7Days] appends it, as
    the instant the host gives for the midnight of the local day of that
    instant, for every instant whose local year is one of 1000 to 9999. *)
Theorem formatDate_round_trip now :
  1000 <= Date_getFullYear now <= 9999 ->
  Date_parse (formatDate now ++ "T00:00:00")
  = Some (UTC (MakeDate (Day (LocalTime now)) 0)).
Proof. exact (formatDate_parse now). Qed.

Section StampedRecords.
Variable off : Z.
Hypothesis zone : constantOffset off.

Lemma stamped_inLast7Days now later subj minutes :
  1000 <= Date_getFullYear now <= 9999 ->
  inLast7Days later (newRecord (formatDate now) subj minutes)
  = Ok ((Day (LocalTime later) - 6 <=? Day (LocalTime now))
        && (Day (LocalTime now) <=? Day (LocalTime later))).
Proof.
  intros Hyear. rewrite (inLast7Days_window off zone).
  change (dateText (newRecord (formatDate now) subj minutes))
    with (Ok (A := string) (formatDate now)).
  cbv beta iota. rewrite (formatDate_parse now Hyear). f_equal.
  apply (inWindow_midnight off zone).
Qed.

(** In a zone without transitions, a record stamped by [formatDate] at the
    instant [now] is kept by the filter at the instant [later] exactly
    when the local day of [now] is one of the seven local days that end
    with the day of [later]. *)
Theorem stamped_record_window now later subj minutes :
  1000 <= Date_getFullYear now <= 9999 ->
  inLast7Days later (newRecord (formatDate now) subj minutes)
  = Ok ((Day (LocalTime later) - 6 <=? Day (LocalTime now))
        && (Day (LocalTime now) <=? Day (LocalTime later))).
Proof. exact (stamped_inLast7Days now later subj minutes). Qed.

Lemma Day_within_six_days now later :
  now <= later <= now + 6 * msPerDay ->
  Day (LocalTime later) - 6 <= Day (LocalTime now) <= Day (LocalTime later).
Proof.
  intros Hlater. destruct zone as [Hl _]. rewrite !Hl.
  unfold Day, msPerDay in *. Z.div_mod_to_equations. lia.
Qed.

(** A stop shows its minutes in the weekly total at once.  In a zone
    without transitions, on a store of study records of whole minutes, a
    stop whose refresh reads the clock no earlier than the stop itself and
    at most six days later returns normally, and the total shown is the
    total of the stored records in the window plus the minutes just
    recorded. *)
Theorem stop_adds_to_weekly_total now later w subj started
    (es : list (string * string * Z)) :
  currentSession w = {| subject := Some subj; startAt := Some started |} ->
  subj <> "" ->
  records (decode (localStorage w !! STORAGE_KEY))
  = map Rec.toValue (map entryRecord es) ->
  1000 <= Date_getFullYear now <= 9999 ->
  now <= later <= now + 6 * msPerDay ->
  let minutes := Z.max 1 (nearestMinute (now - started)) in
  let before := minutesWhere (fun _ => true) (entriesInWindow later es) in
  (endClick now later w).1 = Ok tt
  /\ weeklyTotalText (endClick now later w).2
     = NumberToString (ofZ (before + minutes)).
Proof.
  intros Hsess Hne Hrs Hyear Hlater. cbv zeta.
  set (minutes := Z.max 1 (nearestMinute (now - started))).
  set (new := (formatDate now, subj, minutes)).
  unfold endClick. unfoldM. rewrite Hsess. cbn [startAt subject].
  rewrite (noSubject_nonempty subj Hne).
  rewrite bool_decide_eq_true_2 by (eexists; reflexivity).
  cbn [negb orb Date_getTime]. rewrite loadData_eq.
  unfold saveData. unfoldM. rewrite Hrs, durationMinutes_nearest.
  cbn [subjectValue]. fold minutes.
  change (newRecord (formatDate now) (VStr subj) (ofZ minutes))
    with (Rec.toValue (entryRecord new)).
  match goal with |- context [updateProgressView later ?w1] =>
    rewrite (updateProgressView_entries off zone later w1 (es ++ [new]))
  end.
  - cbn [fst snd]. split; [reflexivity|]. fields. do 2 f_equal.
    unfold entriesInWindow. rewrite List.filter_app. cbn [List.filter].
    replace (inWindow later (Date_parse (new.1.1 ++ "T00:00:00"))) with true.
    + unfold minutesWhere. rewrite fold_right_app. cbn [fold_right new snd].
      generalize (List.filter
                    (fun e => inWindow later (Date_parse (e.1.1 ++ "T00:00:00"))) es).
      intros l. induction l as [|e l IH]; cbn [fold_right]; lia.
    + symmetry. cbn [new fst].
      rewrite (formatDate_parse now Hyear), (inWindow_midnight off zone).
      pose proof (Day_within_six_days now later Hlater).
      apply andb_true_intro. split; apply Z.leb_le; lia.
  - fields. rewrite lookup_insert_eq, decode_saved. cbn [records].
    rewrite !map_app, !map_map. reflexivity.
Qed.

End StampedRecords.

End RecordDates.

Lemma noon_2024_03_10_year :
  1000 <= @Date_getFullYear exampleHost (MakeDate 19792 (MakeTime 3 0 0 0)) <= 9999.
Proof. split; vm_compute; discriminate. Qed.

(** An instance: noon of 2024-03-10 in the zone of the example, which is
    03:00 UTC; the midnight of that day is 15:00 UTC of the day before. *)
Lemma formatDate_round_trip_witness :
  @Date_parse exampleHost
    (@formatDate exampleHost (MakeDate 19792 (MakeTime 3 0 0 0)) ++ "T00:00:00")
  = Some (MakeDate 19791 (MakeTime 15 0 0 0)).
Proof.
  rewrite (@formatDate_round_trip exampleHost
             (fun z _ => exampleHost_numerals z)
             (MakeDate 19792 (MakeTime 3 0 0 0)))
    by exact noon_2024_03_10_year.
  vm_compute. reflexivity.
Defined.

(** An instance: stamped at noon of 2024-03-10 in the zone of the example;
    kept at the last millisecond of 03-16, not kept at the first of
    03-17. *)
Lemma stamped_record_window_witness :
  @inLast7Days exampleHost (@on_2024_03_10 exampleHost 0 + 7 * msPerDay - 1)
    (newRecord (@formatDate exampleHost (MakeDate 19792 (MakeTime 3 0 0 0)))
               (VStr "数学") (ofZ 30))
  = Ok true
  /\ @inLast7Days exampleHost (@on_2024_03_10 exampleHost 0 + 7 * msPerDay)
       (newRecord (@formatDate exampleHost (MakeDate 19792 (MakeTime 3 0 0 0)))
                  (VStr "数学") (ofZ 30))
     = Ok false.
Proof.
  split.
  - rewrite (@stamped_record_window exampleHost
               (fun z _ => exampleHost_numerals z) exampleOffset exampleHost_zone
               (MakeDate 19792 (MakeTime 3 0 0 0))
               (@on_2024_03_10 exampleHost 0 + 7 * msPerDay - 1)
               (VStr "数学") (ofZ 30))
      by exact noon_2024_03_10_year.
    vm_compute. reflexivity.
  - rewrite (@stamped_record_window exampleHost
               (fun z _ => exampleHost_numerals z) exampleOffset exampleHost_zone
               (MakeDate 19792 (MakeTime 3 0 0 0))
               (@on_2024_03_10 exampleHost 0 + 7 * msPerDay)
               (VStr "数学") (ofZ 30))
      by exact noon_2024_03_10_year.
    vm_compute. reflexivity.
Defined.

Lemma examplePage_running_records :
  records (@decode exampleHost
             (localStorage
                (withSession {| subject := Some "数学";
                                startAt := Some (MakeDate 19792 0) |} examplePage)
              !! STORAGE_KEY))
  = map Rec.toValue (map entryRecord specExampleEntries).
Proof. vm_compute. reflexivity. Qed.

Lemma stop_2024_03_10_year :
  1000 <= @Date_getFullYear exampleHost (MakeDate 19792 (MakeTime 0 45 0 0)) <= 9999.
Proof. split; vm_compute; discriminate. Qed.

Lemma stop_2024_03_10_later :
  MakeDate 19792 (MakeTime 0 45 0 0) <= MakeDate 19792 (MakeTime 0 45 0 1)
  <= MakeDate 19792 (MakeTime 0 45 0 0) + 6 * msPerDay.
Proof. split; vm_compute; discriminate. Qed.

(** An instance: in the zone of the example, with the three records of the
    example stored (149 minutes on 2024-03-10), 数学 started at 00:00 UTC of
    that day and stopped 45 minutes later: the total shown is 194. *)
Lemma stop_adds_to_weekly_total_witness :
  let w := withSession {| subject := Some "数学"; startAt := Some (MakeDate 19792 0) |}
             examplePage in
  (@endClick exampleHost (MakeDate 19792 (MakeTime 0 45 0 0))
     (MakeDate 19792 (MakeTime 0 45 0 1)) w).1 = Ok tt
  /\ weeklyTotalText
       (@endClick exampleHost (MakeDate 19792 (MakeTime 0 45 0 0))
          (MakeDate 19792 (MakeTime 0 45 0 1)) w).2
     = "194".
Proof.
  cbv zeta.
  destruct (@stop_adds_to_weekly_total exampleHost
              (fun z _ => exampleHost_numerals z) exampleOffset exampleHost_zone
              (MakeDate 19792 (MakeTime 0 45 0 0))
              (MakeDate 19792 (MakeTime 0 45 0 1))
              (withSession {| subject := Some "数学";
                              startAt := Some (MakeDate 19792 0) |} examplePage)
              "数学" (MakeDate 19792 0) specExampleEntries eq_refl
              ltac:(discriminate) examplePage_running_records
              stop_2024_03_10_year stop_2024_03_10_later)
    as [Hok Htext].
  split; [exact Hok | rewrite Htext; vm_compute; reflexivity].
Defined.
